(** * cocaine.tools.tools: storage and node actions

    A shallow embedding of [cocaine/tools/tools.py].  Every class of the
    module becomes a Rocq module with the constructor and the methods of the
    class; exceptions are explicit ([Result]); the remote services are
    represented by the calls issued on them; the callback-driven inner
    [Future] classes are transition functions over the events their
    producers deliver. *)

From Stdlib Require Import ZArith Lia Ascii.
From stdpp Require Import base strings list gmap.

Local Open Scope Z_scope.

Set Warnings "-register-all".

(** ** Python values *)

(** Hashable atoms, usable as dictionary keys. *)
Inductive Key :=
| KNone
| KInt (z : Z)
| KStr (s : string).

(** The values that reach this module: command-line options, JSON and
    msgpack documents.  A Python 2 [str] is a byte string, so payloads are
    [PyStr] as well. *)
Inductive PyVal :=
| PyNone
| PyInt (z : Z)
| PyStr (s : string)
| PyList (l : list PyVal)
| PyDict (d : list (Key * PyVal)).

Definition Key_eqb (a b : Key) : bool :=
  match a, b with
  | KNone, KNone => true
  | KInt x, KInt y => Z.eqb x y
  | KStr x, KStr y => String.eqb x y
  | _, _ => false
  end.

(** [hash(v)]: lists and dictionaries are unhashable. *)
Definition as_key (v : PyVal) : option Key :=
  match v with
  | PyNone => Some KNone
  | PyInt z => Some (KInt z)
  | PyStr s => Some (KStr s)
  | PyList _ | PyDict _ => None
  end.

Definition of_key (k : Key) : PyVal :=
  match k with
  | KNone => PyNone
  | KInt z => PyInt z
  | KStr s => PyStr s
  end.

(** [bool(v)], the test behind [if not self.name]. *)
Definition truthy (v : PyVal) : bool :=
  match v with
  | PyNone => false
  | PyInt z => negb (Z.eqb z 0)
  | PyStr s => negb (String.eqb s "")
  | PyList l => match l with [] => false | _ => true end
  | PyDict d => match d with [] => false | _ => true end
  end.

(** [x == timestamp] for a string [x]: a string equals only an equal string. *)
Definition str_eq (x : string) (v : PyVal) : bool :=
  match v with
  | PyStr s => String.eqb x s
  | _ => false
  end.

Fixpoint dict_get (k : Key) (d : list (Key * PyVal)) : option PyVal :=
  match d with
  | [] => None
  | (k', v) :: rest => if Key_eqb k k' then Some v else dict_get k rest
  end.

Fixpoint dict_set (k : Key) (v : PyVal) (d : list (Key * PyVal)) : list (Key * PyVal) :=
  match d with
  | [] => [(k, v)]
  | (k', v') :: rest =>
      if Key_eqb k k' then (k, v) :: rest else (k', v') :: dict_set k v rest
  end.

(** ** Exceptions *)

Inductive exn :=
| ValueError (msg : string)
| IOError (msg : string)
| KeyError (key : PyVal)
| TypeError (msg : string)
| IndexError (msg : string)
| AttributeError (msg : string)
| NotImplementedError
| CocaineError (msg : string)
| ToolsError (msg : string)
| ServiceError (msg : string).

Inductive Result (A : Type) :=
| Return (a : A)
| Raise (e : exn).
Arguments Return {A} a.
Arguments Raise {A} e.

#[global] Instance Result_ret : MRet Result := fun A a => Return a.

#[global] Instance Result_bind : MBind Result := fun A B f m =>
  match m with
  | Return a => f a
  | Raise e => Raise e
  end.

(** [try: body except handler]: [handler e = None] when no clause matches. *)
Definition try_except {A} (body : Result A) (handler : exn -> option (Result A)) : Result A :=
  match body with
  | Return a => Return a
  | Raise e => match handler e with
               | Some r => r
               | None => Raise e
               end
  end.

(** [container[key]]. *)
Definition getitem (c key : PyVal) : Result PyVal :=
  match c with
  | PyDict d =>
      match as_key key with
      | Some k => match dict_get k d with
                  | Some v => Return v
                  | None => Raise (KeyError key)
                  end
      | None => Raise (TypeError "unhashable type")
      end
  | PyList l =>
      match key with
      | PyInt i =>
          let n := Z.of_nat (length l) in
          let j := if i <? 0 then i + n else i in
          if (0 <=? j) && (j <? n)
          then match l !! Z.to_nat j with
               | Some v => Return v
               | None => Raise (IndexError "list index out of range")
               end
          else Raise (IndexError "list index out of range")
      | _ => Raise (TypeError "list indices must be integers")
      end
  | PyStr s =>
      match key with
      | PyInt i =>
          let n := Z.of_nat (String.length s) in
          let j := if i <? 0 then i + n else i in
          if (0 <=? j) && (j <? n)
          then match String.get (Z.to_nat j) s with
               | Some c => Return (PyStr (String c EmptyString))
               | None => Raise (IndexError "string index out of range")
               end
          else Raise (IndexError "string index out of range")
      | _ => Raise (TypeError "string indices must be integers")
      end
  | PyNone | PyInt _ => Raise (TypeError "object has no attribute __getitem__")
  end.

(** [container[key] = value], returning the updated container. *)
Definition setitem (c key value : PyVal) : Result PyVal :=
  match c with
  | PyDict d =>
      match as_key key with
      | Some k => Return (PyDict (dict_set k value d))
      | None => Raise (TypeError "unhashable type")
      end
  | PyList l =>
      match key with
      | PyInt i =>
          let n := Z.of_nat (length l) in
          let j := if i <? 0 then i + n else i in
          if (0 <=? j) && (j <? n)
          then Return (PyList (<[Z.to_nat j := value]> l))
          else Raise (IndexError "list assignment index out of range")
      | _ => Raise (TypeError "list indices must be integers")
      end
  | PyNone | PyInt _ | PyStr _ =>
      Raise (TypeError "object does not support item assignment")
  end.

(** ** Collaborators outside the module *)

(** The Python runtime and the libraries the module calls: [str()] behind
    [str.format], [time.ctime], [open], [json], [msgpack] and [tarfile].
    They are left abstract; each may raise. *)
Record Runtime := {
  py_str : PyVal -> string;              (* str(v) *)
  exn_str : exn -> string;               (* str(err) *)
  ctime_micro : string -> Result string; (* ctime(float(ts) / 1000000) *)
  read_file : PyVal -> Result string;    (* open(filename, 'rb').read() *)
  json_loads : string -> Result PyVal;
  msgpack_packb : PyVal -> Result string;
  msgpack_loads : PyVal -> Result PyVal;
  is_tarfile : PyVal -> Result bool
}.

(** Calls on the storage service and on the node service; each returns a
    future of the service. *)
Inductive Call :=
| storage_find (namespace : string) (tags : list PyVal)
| storage_read (namespace : string) (key : PyVal)
| storage_write (namespace : string) (key : PyVal) (blob : string) (tags : list PyVal)
| storage_remove (namespace : string) (key : PyVal)
| node_info
| node_start_app (apps : PyVal)
| node_pause_app (names : list PyVal).

(** Modelled from the spec: the methods of the storage service (section 6:
    find, read, write, remove), as [getattr(storage, method)(namespace, key)]
    reaches them; the service class itself is not part of this module. *)
Definition storage_method (method namespace key : string) : Result Call :=
  if String.eqb method "read" then Return (storage_read namespace (PyStr key))
  else if String.eqb method "remove" then Return (storage_remove namespace (PyStr key))
  else if String.eqb method "find" then Return (storage_find namespace [PyStr key])
  else if String.eqb method "write" then Raise (TypeError "write() takes 4 arguments")
  else Raise (AttributeError method).

(** What the handlers of an inner [Future] do to the outside world. *)
Inductive Effect :=
| callback (v : PyVal)
| errorback (e : exn)
| doneback
| issue (c : Call)
| uncaught (e : exn).

(** Keyword arguments [**config]; [config.get(k)] is [None] for a missing key. *)
Abbreviation Config := (gmap string PyVal).

Definition get (config : Config) (k : string) : PyVal := default PyNone (config !! k).

(** [config[k]]. *)
Definition subscript (config : Config) (k : string) : Result PyVal :=
  match config !! k with
  | Some v => Return v
  | None => Raise (KeyError (PyStr k))
  end.

Definition dq : string := String "034"%char EmptyString.

Definition APPS_TAGS : list PyVal := [PyStr "app"].
Definition RUNLISTS_TAGS : list PyVal := [PyStr "runlist"].
Definition PROFILES_TAGS : list PyVal := [PyStr "profile"].

(** [{key: value}]. *)
Definition dict1 (key value : PyVal) : Result PyVal :=
  match as_key key with
  | Some k => Return (PyDict [(k, value)])
  | None => Raise (TypeError "unhashable type")
  end.

(** ** Storage actions *)

Module StorageAction.
Definition encodeJson (rt : Runtime) (filename : PyVal) : Result string :=
  try_except
    (content ← read_file rt filename;
     data ← json_loads rt content;
     msgpack_packb rt data)
    (fun err =>
       match err with
       | IOError _ =>
           Some (Raise (CocaineError ("Unable to open file - " +:+ exn_str rt err)))
       | ValueError _ =>
           Some (Raise (CocaineError ("File " +:+ dq +:+ py_str rt filename +:+ dq
                                      +:+ " is corrupted - " +:+ exn_str rt err)))
       | _ => None
       end).
End StorageAction.

Module ListAction.
Record t := { key : string; tags : list PyVal }.

Definition __init__ (key : string) (tags : list PyVal) (config : Config) : Result t :=
  Return {| key := key; tags := tags |}.

Definition execute (self : t) : Call := storage_find (key self) (tags self).
End ListAction.

Module AppListAction.
Definition __init__ (config : Config) : Result ListAction.t :=
  ListAction.__init__ "manifests" APPS_TAGS config.
End AppListAction.

Module AppViewAction.
Record t := { name : PyVal }.

Definition __init__ (config : Config) : Result t :=
  let name := get config "name" in
  if negb (truthy name) then Raise (ValueError "Specify name of application")
  else Return {| name := name |}.

Definition execute (self : t) : Call := storage_read "manifests" (name self).
End AppViewAction.

Module AppUploadAction.
Record t := { name : PyVal; manifest : PyVal; package : PyVal }.

Definition __init__ (config : Config) : Result t :=
  let name := get config "name" in
  let manifest := get config "manifest" in
  let package := get config "package" in
  if negb (truthy name) then Raise (ValueError "Please specify name of the app")
  else if negb (truthy manifest) then Raise (ValueError "Please specify manifest of the app")
  else if negb (truthy package) then Raise (ValueError "Please specify package of the app")
  else Return {| name := name; manifest := manifest; package := package |}.

Definition encodePackage (rt : Runtime) (self : t) : Result string :=
  try_except
    (tar ← is_tarfile rt (package self);
     if negb tar
     then Raise (CocaineError ("File " +:+ dq +:+ py_str rt (package self) +:+ dq
                               +:+ " is ot tar file"))
     else archive ← read_file rt (package self);
          msgpack_packb rt (PyStr archive))
    (fun err =>
       match err with
       | IOError _ =>
           Some (Raise (CocaineError ("Error occurred while reading archive file " +:+ dq
                                      +:+ py_str rt (package self) +:+ dq +:+ " - "
                                      +:+ exn_str rt err)))
       | _ => None
       end).

Definition upload (self : t) (manifest package : string) : list Call :=
  [ storage_write "manifests" (name self) manifest APPS_TAGS;
    storage_write "apps" (name self) package APPS_TAGS ].

Definition execute (rt : Runtime) (self : t) : Result (list Call) :=
  manifest ← StorageAction.encodeJson rt (manifest self);
  package ← encodePackage rt self;
  Return (upload self manifest package).
End AppUploadAction.

Module AppRemoveAction.
Record t := { name : PyVal }.

Definition __init__ (config : Config) : Result t :=
  let name := get config "name" in
  if negb (truthy name) then Raise (ValueError "Empty application name")
  else Return {| name := name |}.

Definition execute (self : t) : list Call :=
  [ storage_remove "manifests" (name self); storage_remove "apps" (name self) ].
End AppRemoveAction.

Module ProfileListAction.
Definition __init__ (config : Config) : Result ListAction.t :=
  ListAction.__init__ "profiles" PROFILES_TAGS config.
End ProfileListAction.

Module SpecificProfileAction.
Record t := { name : PyVal }.

Definition __init__ (config : Config) : Result t :=
  let name := get config "name" in
  if negb (truthy name) then Raise (ValueError "Please specify profile name")
  else Return {| name := name |}.
End SpecificProfileAction.

Module ProfileUploadAction.
Record t := { name : PyVal; profile : PyVal }.

Definition __init__ (config : Config) : Result t :=
  super ← SpecificProfileAction.__init__ config;
  let profile := get config "manifest" in
  if negb (truthy profile) then Raise (ValueError "Please specify profile file path")
  else Return {| name := SpecificProfileAction.name super; profile := profile |}.

Definition execute (rt : Runtime) (self : t) : Result Call :=
  profile ← StorageAction.encodeJson rt (profile self);
  Return (storage_write "profiles" (name self) profile PROFILES_TAGS).
End ProfileUploadAction.

Module ProfileRemoveAction.
Definition __init__ := SpecificProfileAction.__init__.

Definition execute (self : SpecificProfileAction.t) : Call :=
  storage_remove "profiles" (SpecificProfileAction.name self).
End ProfileRemoveAction.

Module ProfileViewAction.
Definition __init__ := SpecificProfileAction.__init__.

Definition execute (self : SpecificProfileAction.t) : Call :=
  storage_read "profiles" (SpecificProfileAction.name self).
End ProfileViewAction.

Module RunlistListAction.
Definition __init__ (config : Config) : Result ListAction.t :=
  ListAction.__init__ "runlists" RUNLISTS_TAGS config.
End RunlistListAction.

Module SpecificRunlistAction.
Record t := { name : PyVal }.

Definition __init__ (config : Config) : Result t :=
  let name := get config "name" in
  if negb (truthy name) then Raise (ValueError "Please specify runlist name")
  else Return {| name := name |}.
End SpecificRunlistAction.

Module RunlistViewAction.
Definition __init__ := SpecificRunlistAction.__init__.

Definition execute (self : SpecificRunlistAction.t) : Call :=
  storage_read "runlists" (SpecificRunlistAction.name self).
End RunlistViewAction.

Module RunlistUploadAction.
Record t := { name : PyVal; runlist : PyVal; runlist_raw : PyVal }.

Definition __init__ (config : Config) : Result t :=
  super ← SpecificRunlistAction.__init__ config;
  let runlist := get config "manifest" in
  let runlist_raw := get config "runlist-raw" in
  if negb (truthy runlist || truthy runlist_raw)
  then Raise (ValueError "Please specify runlist profile file path")
  else Return {| name := SpecificRunlistAction.name super;
                 runlist := runlist; runlist_raw := runlist_raw |}.

Definition execute (rt : Runtime) (self : t) : Result Call :=
  runlist ← (if truthy (runlist self)
             then StorageAction.encodeJson rt (runlist self)
             else msgpack_packb rt (runlist_raw self));
  Return (storage_write "runlists" (name self) runlist RUNLISTS_TAGS).
End RunlistUploadAction.

Module RunlistRemoveAction.
Definition __init__ := SpecificRunlistAction.__init__.

Definition execute (self : SpecificRunlistAction.t) : Call :=
  storage_remove "runlists" (SpecificRunlistAction.name self).
End RunlistRemoveAction.

(** ** Chains *)

(** What a chain step hands back: a future of a service call to wait for, or
    an immediate value. *)
Inductive StepOut :=
| Awaits (c : Call)
| Immediate (v : PyVal).

(** What a generator yields: a future, or a list of values. *)
Inductive Yielded :=
| yield_future (c : Call)
| yield_values (vs : list PyVal).

(** A generator suspended at a [yield]: [resume] is given the value sent in,
    or the exception thrown in at the [yield]. *)
Inductive Generator :=
| Yield (y : Yielded) (resume : Result PyVal -> Generator)
| Exhausted
| Failed (e : exn).

(** A step called without arguments, a step called with the result of the
    previous step (an object whose [get()] returns the value or raises), or a
    generator function. *)
Inductive Step :=
| step0 (f : Result StepOut)
| step1 (f : Result PyVal -> Result StepOut)
| stepgen (g : Generator).

(** Modelled from the spec: ChainFactory of cocaine.futures.chain, which is
    not part of this module; a chain is the ordered list of its steps
    (section 4.4) and [then] adds a step at the end. *)
Definition ChainFactory : list Step := [].

Definition then_ (chain : list Step) (step : Step) : list Step := chain ++ [step].

(** Runs a generator on the given responses; returns what it yielded and
    where it stands afterwards. *)
Fixpoint feed (g : Generator) (responses : list (Result PyVal)) : list Yielded * Generator :=
  match g with
  | Yield y resume =>
      match responses with
      | [] => ([y], g)
      | r :: rest => let '(ys, g') := feed (resume r) rest in (y :: ys, g')
      end
  | Exhausted | Failed _ => ([], g)
  end.

Definition calls_of (ys : list Yielded) : list Call :=
  flat_map (fun y => match y with yield_future c => [c] | yield_values _ => [] end) ys.

Module AddApplicationToRunlistAction.
Record t := { name : PyVal; app : PyVal; profile : PyVal }.

Definition __init__ (config : Config) : Result t :=
  super ← SpecificRunlistAction.__init__ config;
  let app := get config "app" in
  let profile := get config "profile" in
  if negb (truthy app) then Raise (ValueError "Please specify application name")
  else if negb (truthy profile) then Raise (ValueError "Please specify profile")
  else Return {| name := SpecificRunlistAction.name super; app := app; profile := profile |}.

Definition getRunlist (self : t) : Result StepOut :=
  action ← RunlistViewAction.__init__ {[ "name" := name self ]};
  Return (Awaits (RunlistViewAction.execute action)).

Definition parseRunlist (rt : Runtime) (self : t) (result : Result PyVal) : Result StepOut :=
  packed ← result;
  runlist ← msgpack_loads rt packed;
  runlist ← setitem runlist (app self) (profile self);
  Return (Immediate runlist).

Definition uploadRunlist (rt : Runtime) (self : t) (runlist : Result PyVal) : Result StepOut :=
  raw ← runlist;
  action ← RunlistUploadAction.__init__ {[ "name" := name self; "runlist-raw" := raw ]};
  future ← RunlistUploadAction.execute rt action;
  Return (Awaits future).

Definition execute (rt : Runtime) (self : t) : list Step :=
  then_ (then_ (then_ ChainFactory (step0 (getRunlist self)))
               (step1 (parseRunlist rt self)))
        (step1 (uploadRunlist rt self)).
End AddApplicationToRunlistAction.

(** ** Crash logs *)

Module CrashlogListAction.
Record t := { name : PyVal }.

Definition __init__ (config : Config) : Result t :=
  let name := get config "name" in
  if negb (truthy name) then Raise (ValueError "Please specify crashlog name")
  else Return {| name := name |}.

Definition execute (self : t) : Call := storage_find "crashlogs" [name self].
End CrashlogListAction.

(** [s.split(sep)] for a one-character separator. *)
Fixpoint split (sep : ascii) (s : string) : list string :=
  match s with
  | EmptyString => [EmptyString]
  | String c rest =>
      if Ascii.eqb c sep then EmptyString :: split sep rest
      else match split sep rest with
           | [] => [String c EmptyString]
           | hd :: tl => String c hd :: tl
           end
  end.

(** [ts, name = parts]. *)
Definition unpack2 (parts : list string) : Result (string * string) :=
  match parts with
  | [ts; name] => Return (ts, name)
  | [] | [_] => Raise (ValueError "need more than 1 value to unpack")
  | _ => Raise (ValueError "too many values to unpack")
  end.

(** [flt] of [parseCrashlogs]. *)
Definition flt (timestamp : PyVal) (x : string) : bool :=
  if truthy timestamp then str_eq x timestamp else true.

Fixpoint parseCrashlogs (rt : Runtime) (crashlogs : list string) (timestamp : PyVal)
  : Result (list (string * string * string)) :=
  match crashlogs with
  | [] => Return []
  | log :: rest =>
      '(ts, name) ← unpack2 (split ":" log);
      if flt timestamp ts
      then date ← ctime_micro rt ts;
           parsed ← parseCrashlogs rt rest timestamp;
           Return ((ts, date, name) :: parsed)
      else parseCrashlogs rt rest timestamp
  end.

Module CrashlogViewOrRemoveAction.
Record t := { name : PyVal; timestamp : PyVal; method : string }.

Definition __init__ (method : string) (config : Config) : Result t :=
  let name := get config "name" in
  let timestamp := get config "manifest" in
  if negb (truthy name) then Raise (ValueError "Please specify name")
  else Return {| name := name; timestamp := timestamp; method := method |}.

(** The inner class [Future] of [execute].  The handlers bound with [bind]
    are the effects [callback], [errorback] and [doneback]. *)
Module Future.
Record t := { action : CrashlogViewOrRemoveAction.t; messagesLeft : Z }.

Definition __init__ (action : CrashlogViewOrRemoveAction.t) : t :=
  {| action := action; messagesLeft := 0 |}.

(** [countable(func)], called: runs [func], counts down, and calls
    [doneback] when nothing is left. *)
Definition countable (func : Effect) (self : t) : t * list Effect :=
  let left := messagesLeft self - 1 in
  ({| action := action self; messagesLeft := left |},
   func :: (if Z.eqb left 0 then [doneback] else [])).

(** The [for] loop of [onChunk]; the futures it creates are numbered in
    the order of the loop. *)
Fixpoint fan_out (method : string) (crashlogs : list (string * string * string))
  : list Effect :=
  match crashlogs with
  | [] => []
  | (ts, _, name) :: rest =>
      let key := ts +:+ ":" +:+ name in
      match storage_method method "crashlogs" key with
      | Return c => issue c :: fan_out method rest
      | Raise e => [uncaught e]
      end
  end.

Definition onChunk (rt : Runtime) (self : t) (chunk : list string) : t * list Effect :=
  match parseCrashlogs rt chunk (timestamp (action self)) with
  | Raise e => (self, [uncaught e])
  | Return crashlogs =>
      ({| action := action self; messagesLeft := Z.of_nat (length crashlogs) |},
       (if Nat.eqb (length crashlogs) 0 then [doneback] else [])
         ++ fan_out (method (action self)) crashlogs)
  end.

Definition onError (self : t) (exception : exn) : t * list Effect :=
  (self, [errorback exception; doneback]).

Definition onDone (self : t) : t * list Effect := (self, [doneback]).

(** What the futures this object is bound to deliver: the future of the
    [find] call is bound to [onChunk], [onError] and [onDone]; the
    future of the [i]-th secondary call is bound to
    [countable(self.callback)], [countable(self.errorback)] and
    [self.doneback]. *)
Inductive Event :=
| found (chunk : list string)
| find_failed (e : exn)
| find_done
| answered (i : nat) (v : PyVal)
| failed (i : nat) (e : exn)
| closed (i : nat).

Definition deliver (rt : Runtime) (self : t) (ev : Event) : t * list Effect :=
  match ev with
  | found chunk => onChunk rt self chunk
  | find_failed e => onError self e
  | find_done => onDone self
  | answered _ v => countable (callback v) self
  | failed _ e => countable (errorback e) self
  | closed _ => (self, [doneback])
  end.

Fixpoint run (rt : Runtime) (self : t) (evs : list Event) : t * list Effect :=
  match evs with
  | [] => (self, [])
  | ev :: rest =>
      let '(self1, effs1) := deliver rt self ev in
      let '(self2, effs2) := run rt self1 rest in
      (self2, effs1 ++ effs2)
  end.
End Future.

(** The [find] call issued, and the [Future] bound to it. *)
Definition execute (self : t) : Call * Future.t :=
  (storage_find "crashlogs" [name self], Future.__init__ self).
End CrashlogViewOrRemoveAction.

Module CrashlogViewAction.
Definition __init__ (config : Config) : Result CrashlogViewOrRemoveAction.t :=
  CrashlogViewOrRemoveAction.__init__ "read" config.
End CrashlogViewAction.

Module CrashlogRemoveAction.
Definition __init__ (config : Config) : Result CrashlogViewOrRemoveAction.t :=
  CrashlogViewOrRemoveAction.__init__ "remove" config.
End CrashlogRemoveAction.

Module CrashlogRemoveAllAction.
Definition __init__ (config : Config) : Result CrashlogViewOrRemoveAction.t :=
  let config := <["manifest" := PyNone]> config in
  CrashlogViewOrRemoveAction.__init__ "remove" config.
End CrashlogRemoveAllAction.

(** How often [doneback] was called, and the calls issued. *)
Definition is_doneback (e : Effect) : bool :=
  match e with doneback => true | _ => false end.

Definition donebacks (effs : list Effect) : nat :=
  length (List.filter is_doneback effs).

Definition issued (effs : list Effect) : list Call :=
  flat_map (fun e => match e with issue c => [c] | _ => [] end) effs.

(** ** Node actions *)

Module NodeAction.
Record t := { config : Config }.

Definition __init__ (config : Config) : Result t := Return {| config := config |}.
End NodeAction.

Module NodeInfoAction.
Definition __init__ := NodeAction.__init__.

Definition execute (self : NodeAction.t) : Call := node_info.
End NodeInfoAction.

Module AppStartAction.
Record t := { name : PyVal; profile : PyVal }.

Definition __init__ (config : Config) : Result t :=
  let name := get config "name" in
  let profile := get config "profile" in
  if negb (truthy name) then Raise (ValueError "Please specify application name")
  else if negb (truthy profile) then Raise (ValueError "Please specify profile name")
  else Return {| name := name; profile := profile |}.

Definition execute (self : t) : Result Call :=
  apps ← dict1 (name self) (profile self);
  Return (node_start_app apps).
End AppStartAction.

Module AppPauseAction.
Record t := { name : PyVal }.

Definition __init__ (config : Config) : Result t :=
  let name := get config "name" in
  if negb (truthy name) then Raise (ValueError "Please specify application name")
  else Return {| name := name |}.

Definition execute (self : t) : Call := node_pause_app [name self].
End AppPauseAction.

Module AppRestartAction.
Record t := { config : Config; name : PyVal; profile : PyVal }.

Definition __init__ (config : Config) : Result t :=
  let name := get config "name" in
  let profile := get config "profile" in
  if negb (truthy name) then Raise (ValueError "Please specify application name")
  else Return {| config := config; name := name; profile := profile |}.

(** The two [except] clauses of [doAction]; every exception raised or
    thrown in inside the [try] ends here. *)
Definition except (rt : Runtime) (self : t) (err : exn) : Generator :=
  match err with
  | KeyError _ =>
      Failed (ToolsError ("Application " +:+ dq +:+ py_str rt (name self) +:+ dq
                          +:+ " is not running and profile not specified"))
  | _ => Failed (ToolsError ("Unknown error - " +:+ exn_str rt err))
  end.

(** [self.profile or info['apps'][self.name]['profile']]. *)
Definition resolve_profile (self : t) (info : PyVal) : Result PyVal :=
  if truthy (profile self) then Return (profile self)
  else apps ← getitem info (PyStr "apps");
       app ← getitem apps (name self);
       getitem app (PyStr "profile").

Definition doAction (rt : Runtime) (self : t) : Generator :=
  match (action ← NodeInfoAction.__init__ (config self);
         Return (NodeInfoAction.execute action)) with
  | Raise err => except rt self err
  | Return infoFuture =>
  Yield (yield_future infoFuture) (fun sent =>
  match (info ← sent;
         profile ← resolve_profile self info;
         action ← AppPauseAction.__init__ (config self);
         Return (profile, AppPauseAction.execute action)) with
  | Raise err => except rt self err
  | Return (profile, pauseFuture) =>
  Yield (yield_future pauseFuture) (fun sent =>
  match (appStopStatus ← sent;
         host ← subscript (config self) "host";
         port ← subscript (config self) "port";
         let appStartConfig : Config :=
           {[ "host" := host; "port" := port; "name" := name self; "profile" := profile ]} in
         action ← AppStartAction.__init__ appStartConfig;
         startFuture ← AppStartAction.execute action;
         Return (appStopStatus, startFuture)) with
  | Raise err => except rt self err
  | Return (appStopStatus, startFuture) =>
  Yield (yield_future startFuture) (fun sent =>
  match sent with
  | Raise err => except rt self err
  | Return appStartStatus =>
  Yield (yield_values [appStopStatus; appStartStatus]) (fun sent =>
  match sent with
  | Raise err => except rt self err
  | Return _ => Exhausted
  end)
  end)
  end)
  end)
  end.

Definition execute (rt : Runtime) (self : t) : list Step :=
  then_ ChainFactory (stepgen (doAction rt self)).
End AppRestartAction.

Module AppCheckAction.
Record t := { name : PyVal }.

Definition __init__ (config : Config) : Result t :=
  let name := get config "name" in
  if negb (truthy name) then Raise (ValueError "Please specify application name")
  else Return {| name := name |}.

(** The inner class [Future] of [execute]. *)
Module Future.
Record t := { action : AppCheckAction.t; messagesLeft : Z }.

Definition __init__ (action : AppCheckAction.t) : t :=
  {| action := action; messagesLeft := 0 |}.

(** The [try] block of [onChunk]. *)
Definition lookup_state (self : t) (chunk : PyVal) : Result PyVal :=
  apps ← getitem chunk (PyStr "apps");
  app ← getitem apps (name (action self));
  getitem app (PyStr "state").

Definition onChunk (self : t) (chunk : PyVal) : list Effect :=
  let '(state, pending) :=
    match lookup_state self chunk with
    | Return state => (state, [])
    | Raise (KeyError _) => (PyStr "stopped or missing", [])
    | Raise err => (PyStr "stopped or missing", [uncaught err])
    end in
  (* finally *)
  match dict1 (name (action self)) state with
  | Return report => callback report :: pending
  | Raise err => [uncaught err]
  end.

Definition onError (self : t) (exception : exn) : list Effect := [errorback exception].
End Future.

Definition execute (self : t) : Call * Future.t := (node_info, Future.__init__ self).
End AppCheckAction.

(** ** Predicates used in the statements *)

Fixpoint contains (c : ascii) (s : string) : bool :=
  match s with
  | EmptyString => false
  | String c' rest => Ascii.eqb c' c || contains c rest
  end.

(** A list line on the wire, ["<timestamp>:<identifier>"]. *)
Definition wire (entry : string * string) : string :=
  entry.1 +:+ ":" +:+ entry.2.

Definition well_formed (entry : string * string) : bool :=
  negb (contains ":" entry.1) && negb (contains ":" entry.2).

(** The status snapshot has no entry for the application: the ['apps'] key is
    absent, or the map under it has no entry for [name]. *)
Definition absent_app (snapshot name : PyVal) : bool :=
  match snapshot with
  | PyDict d =>
      match dict_get (KStr "apps") d with
      | None => true
      | Some (PyDict apps) =>
          match as_key name with
          | Some k => match dict_get k apps with None => true | Some _ => false end
          | None => false
          end
      | Some _ => false
      end
  | _ => false
  end.

(** A line that [parseCrashlogs] accepts: two fields around one colon, the
    first of which [ctime] accepts. *)
Definition line_ok (rt : Runtime) (line : string) : bool :=
  match unpack2 (split ":" line) with
  | Return (ts, _) => match ctime_micro rt ts with Return _ => true | Raise _ => false end
  | Raise _ => false
  end.

Definition is_found (ev : CrashlogViewOrRemoveAction.Future.Event) : bool :=
  match ev with CrashlogViewOrRemoveAction.Future.found _ => true | _ => false end.

(** The secondary futures that deliver a result (a chunk or an error), in the
    order of delivery. *)
Definition results (evs : list CrashlogViewOrRemoveAction.Future.Event) : list nat :=
  flat_map (fun ev =>
              match ev with
              | CrashlogViewOrRemoveAction.Future.answered i _
              | CrashlogViewOrRemoveAction.Future.failed i _ => [i]
              | _ => []
              end) evs.

Definition is_result (ev : CrashlogViewOrRemoveAction.Future.Event) : bool :=
  match ev with
  | CrashlogViewOrRemoveAction.Future.answered _ _
  | CrashlogViewOrRemoveAction.Future.failed _ _ => true
  | _ => false
  end.

(** The events after the list chunk of a run in which no further list chunk
    arrives and each of the [n] secondary requests delivers at most one
    result, a chunk or an error.  This is a restriction on the producers, and
    narrower than what a future may do: a future may deliver several chunks,
    and an error after them. *)
Definition fan_in_run (n : nat) (evs : list CrashlogViewOrRemoveAction.Future.Event) : Prop :=
  Forall (fun ev => is_found ev = false) evs
  /\ NoDup (results evs)
  /\ Forall (fun i => (i < n)%nat) (results evs).

(** The arguments of the calls to [callback], and the number of calls to
    [errorback] and of exceptions that leave a handler. *)
Definition callbacks (effs : list Effect) : list PyVal :=
  flat_map (fun e => match e with callback v => [v] | _ => [] end) effs.

Definition errors (effs : list Effect) : nat :=
  length (List.filter (fun e => match e with errorback _ | uncaught _ => true | _ => false end)
            effs).

(** ** Construction of the actions, uniformly *)

(** The classes of the module that check parameters in their constructor. *)
Inductive Variant :=
| AppView | AppUpload | AppRemove
| ProfileUpload | ProfileRemove | ProfileView
| RunlistView | RunlistUpload | RunlistRemove | AddApplicationToRunlist
| CrashlogList | CrashlogView | CrashlogRemove | CrashlogRemoveAll
| AppStart | AppPause | AppRestart | AppCheck.

(** Runs the constructor of the class; on success, returns the attributes it
    stored from the configuration, under the keys they were read from. *)
Definition construct (v : Variant) (config : Config) : Result (list (string * PyVal)) :=
  match v with
  | AppView =>
      self ← AppViewAction.__init__ config;
      Return [("name", AppViewAction.name self)]
  | AppUpload =>
      self ← AppUploadAction.__init__ config;
      Return [("name", AppUploadAction.name self);
              ("manifest", AppUploadAction.manifest self);
              ("package", AppUploadAction.package self)]
  | AppRemove =>
      self ← AppRemoveAction.__init__ config;
      Return [("name", AppRemoveAction.name self)]
  | ProfileUpload =>
      self ← ProfileUploadAction.__init__ config;
      Return [("name", ProfileUploadAction.name self);
              ("manifest", ProfileUploadAction.profile self)]
  | ProfileRemove =>
      self ← ProfileRemoveAction.__init__ config;
      Return [("name", SpecificProfileAction.name self)]
  | ProfileView =>
      self ← ProfileViewAction.__init__ config;
      Return [("name", SpecificProfileAction.name self)]
  | RunlistView =>
      self ← RunlistViewAction.__init__ config;
      Return [("name", SpecificRunlistAction.name self)]
  | RunlistUpload =>
      self ← RunlistUploadAction.__init__ config;
      Return [("name", RunlistUploadAction.name self);
              ("manifest", RunlistUploadAction.runlist self);
              ("runlist-raw", RunlistUploadAction.runlist_raw self)]
  | RunlistRemove =>
      self ← RunlistRemoveAction.__init__ config;
      Return [("name", SpecificRunlistAction.name self)]
  | AddApplicationToRunlist =>
      self ← AddApplicationToRunlistAction.__init__ config;
      Return [("name", AddApplicationToRunlistAction.name self);
              ("app", AddApplicationToRunlistAction.app self);
              ("profile", AddApplicationToRunlistAction.profile self)]
  | CrashlogList =>
      self ← CrashlogListAction.__init__ config;
      Return [("name", CrashlogListAction.name self)]
  | CrashlogView =>
      self ← CrashlogViewAction.__init__ config;
      Return [("name", CrashlogViewOrRemoveAction.name self)]
  | CrashlogRemove =>
      self ← CrashlogRemoveAction.__init__ config;
      Return [("name", CrashlogViewOrRemoveAction.name self)]
  | CrashlogRemoveAll =>
      self ← CrashlogRemoveAllAction.__init__ config;
      Return [("name", CrashlogViewOrRemoveAction.name self)]
  | AppStart =>
      self ← AppStartAction.__init__ config;
      Return [("name", AppStartAction.name self); ("profile", AppStartAction.profile self)]
  | AppPause =>
      self ← AppPauseAction.__init__ config;
      Return [("name", AppPauseAction.name self)]
  | AppRestart =>
      self ← AppRestartAction.__init__ config;
      Return [("name", AppRestartAction.name self)]
  | AppCheck =>
      self ← AppCheckAction.__init__ config;
      Return [("name", AppCheckAction.name self)]
  end.

(** The required parameters of each class: of every group of keys, at least
    one must be given and not empty. *)
Definition required (v : Variant) : list (list string) :=
  match v with
  | AppUpload => [["name"]; ["manifest"]; ["package"]]
  | ProfileUpload => [["name"]; ["manifest"]]
  | RunlistUpload => [["name"]; ["manifest"; "runlist-raw"]]
  | AddApplicationToRunlist => [["name"]; ["app"]; ["profile"]]
  | AppStart => [["name"]; ["profile"]]
  | AppView | AppRemove | ProfileRemove | ProfileView | RunlistView | RunlistRemove
  | CrashlogList | CrashlogView | CrashlogRemove | CrashlogRemoveAll
  | AppPause | AppRestart | AppCheck => [["name"]]
  end.

(** Every key of the group is missing from the configuration, or empty. *)
Definition missing (config : Config) (group : list string) : bool :=
  forallb (fun k => negb (truthy (get config k))) group.

Definition lacks_required (v : Variant) (config : Config) : bool :=
  existsb (missing config) (required v).

(** Some key of the group has a non-empty value among the attributes. *)
Definition provided (attrs : list (string * PyVal)) (group : list string) : bool :=
  existsb (fun k => existsb (fun kv => String.eqb kv.1 k && truthy kv.2) attrs) group.

(** ** Payload sources *)

Definition unreadable (rt : Runtime) (path : PyVal) : bool :=
  match read_file rt path with
  | Raise (IOError _) => true
  | _ => false
  end.

Definition not_json (rt : Runtime) (path : PyVal) : bool :=
  match read_file rt path with
  | Return content => match json_loads rt content with
                      | Raise (ValueError _) => true
                      | _ => false
                      end
  | Raise _ => false
  end.

Definition not_archive (rt : Runtime) (path : PyVal) : bool :=
  match is_tarfile rt path with
  | Return false => true
  | Return true => unreadable rt path
  | Raise (IOError _) => true
  | Raise _ => false
  end.

(** The two uploads that encode a file before they write. *)
Inductive Upload :=
| app_upload (self : AppUploadAction.t)
| profile_upload (self : ProfileUploadAction.t).

Definition execute_upload (rt : Runtime) (u : Upload) : Result (list Call) :=
  match u with
  | app_upload self => AppUploadAction.execute rt self
  | profile_upload self => future ← ProfileUploadAction.execute rt self; Return [future]
  end.

(** The source of the upload is unreadable or not JSON, or, for the package
    of an application whose manifest encodes, unreadable or not a tar
    archive. *)
Definition bad_source (rt : Runtime) (u : Upload) : bool :=
  match u with
  | app_upload self =>
      unreadable rt (AppUploadAction.manifest self)
      || not_json rt (AppUploadAction.manifest self)
      || match StorageAction.encodeJson rt (AppUploadAction.manifest self) with
         | Return _ => not_archive rt (AppUploadAction.package self)
         | Raise _ => false
         end
  | profile_upload self =>
      unreadable rt (ProfileUploadAction.profile self)
      || not_json rt (ProfileUploadAction.profile self)
  end.

(** The calls a computation has issued when it ends. *)
Definition written (r : Result (list Call)) : list Call :=
  match r with
  | Return calls => calls
  | Raise _ => []
  end.

(** ** A runtime to run the definitions on *)

Definition test_files : list (string * string) :=
  [ ("manifest.json", "{}"); ("broken.json", "{"); ("app.tar.gz", "tarball");
    ("notes.txt", "plain text") ].

Fixpoint file_content (files : list (string * string)) (path : string) : option string :=
  match files with
  | [] => None
  | (p, content) :: rest => if String.eqb p path then Some content else file_content rest path
  end.

Definition is_digit (c : ascii) : bool :=
  (48 <=? nat_of_ascii c)%nat && (nat_of_ascii c <=? 57)%nat.

Fixpoint all_digits (s : string) : bool :=
  match s with
  | EmptyString => true
  | String c rest => is_digit c && all_digits rest
  end.

Definition test_runtime : Runtime := {|
  py_str v := match v with PyStr s => s | _ => "<object>" end;
  exn_str e :=
    match e with
    | ValueError m | IOError m | TypeError m | IndexError m | AttributeError m
    | CocaineError m | ToolsError m | ServiceError m => m
    | KeyError _ => "<key>"
    | NotImplementedError => ""
    end;
  ctime_micro ts :=
    match ts with
    | EmptyString => Raise (ValueError "could not convert string to float")
    | _ => if all_digits ts then Return ("ctime " +:+ ts)
           else Raise (ValueError "could not convert string to float")
    end;
  read_file path :=
    match path with
    | PyStr p => match file_content test_files p with
                 | Some content => Return content
                 | None => Raise (IOError "No such file or directory")
                 end
    | _ => Raise (TypeError "coercing to Unicode: need string or buffer")
    end;
  json_loads content :=
    if String.eqb content "{}" then Return (PyDict [])
    else Raise (ValueError "No JSON object could be decoded");
  msgpack_packb v :=
    match v with
    | PyStr s => Return ("raw:" +:+ s)
    | PyDict d => Return ("map:" +:+ String.concat "," (map (fun kv =>
                     match kv with
                     | (KStr k, PyStr x) => k +:+ "=" +:+ x
                     | _ => "?"
                     end) d))
    | _ => Return "nil"
    end;
  msgpack_loads v :=
    match v with
    | PyStr "map:" => Return (PyDict [])
    | PyStr "map:web=default" => Return (PyDict [(KStr "web", PyStr "default")])
    | _ => Raise (ValueError "unpack failed")
    end;
  is_tarfile path :=
    match path with
    | PyStr p => match file_content test_files p with
                 | Some _ => Return (String.eqb p "app.tar.gz")
                 | None => Raise (IOError "No such file or directory")
                 end
    | _ => Raise (TypeError "coercing to Unicode: need string or buffer")
    end
|}.

(** ** Further notions for the statements below *)

Fixpoint occurrences (c : ascii) (s : string) : nat :=
  match s with
  | EmptyString => 0
  | String c' rest => (if Ascii.eqb c' c then 1 else 0) + occurrences c rest
  end.

(** The key ["%s:%s" % (crashlog[0], crashlog[2])] of a parsed entry. *)
Definition key_of (crashlog : string * string * string) : string :=
  crashlog.1.1 +:+ ":" +:+ crashlog.2.

(** What precedes the first colon of a line. *)
Definition first_field (line : string) : string :=
  match split ":" line with
  | field :: _ => field
  | [] => ""
  end.

(** The events that call [doneback] directly: the completion of the [find]
    future or of a secondary future, and an upstream error. *)
Definition completions (evs : list CrashlogViewOrRemoveAction.Future.Event) : nat :=
  length (List.filter
            (fun ev => match ev with
                       | CrashlogViewOrRemoveAction.Future.find_failed _
                       | CrashlogViewOrRemoveAction.Future.find_done
                       | CrashlogViewOrRemoveAction.Future.closed _ => true
                       | _ => false
                       end) evs).

(** The chunks of the secondary futures, and the errors of all futures, in the
    order of delivery. *)
Definition answers (evs : list CrashlogViewOrRemoveAction.Future.Event) : list PyVal :=
  flat_map (fun ev => match ev with
                      | CrashlogViewOrRemoveAction.Future.answered _ v => [v]
                      | _ => []
                      end) evs.

Definition failures (evs : list CrashlogViewOrRemoveAction.Future.Event) : list exn :=
  flat_map (fun ev => match ev with
                      | CrashlogViewOrRemoveAction.Future.failed _ e
                      | CrashlogViewOrRemoveAction.Future.find_failed e => [e]
                      | _ => []
                      end) evs.

Definition errorbacks (effs : list Effect) : list exn :=
  flat_map (fun e => match e with errorback err => [err] | _ => [] end) effs.

(** A generator from which no exception but a ToolsError can come out,
    however it is resumed. *)
Inductive only_ToolsError : Generator -> Prop :=
| only_yield y resume : (forall sent, only_ToolsError (resume sent)) ->
                        only_ToolsError (Yield y resume)
| only_exhausted : only_ToolsError Exhausted
| only_failed msg : only_ToolsError (Failed (ToolsError msg)).

(** The test runtime over a storage whose runlists decode to [None]. *)
Definition test_runtime_without_runlists : Runtime := {|
  py_str := py_str test_runtime;
  exn_str := exn_str test_runtime;
  ctime_micro := ctime_micro test_runtime;
  read_file := read_file test_runtime;
  json_loads := json_loads test_runtime;
  msgpack_packb := msgpack_packb test_runtime;
  msgpack_loads _ := Return PyNone;
  is_tarfile := is_tarfile test_runtime
|}.

(** The state a status snapshot holds for an application:
    [snapshot['apps'][name]['state']], or 'stopped or missing' when one of
    the three lookups fails. *)
Definition reported_state (snapshot name : PyVal) : PyVal :=
  match getitem snapshot (PyStr "apps") with
  | Return apps =>
      match getitem apps name with
      | Return app =>
          match getitem app (PyStr "state") with
          | Return state => state
          | Raise _ => PyStr "stopped or missing"
          end
      | Raise _ => PyStr "stopped or missing"
      end
  | Raise _ => PyStr "stopped or missing"
  end.

(** ** Execution of the actions, uniformly *)

(** What [execute] hands back: the futures of the calls it has issued, or a
    chain that has yet to run. *)
Inductive Launched :=
| futures (calls : list Call)
| chain (steps : list Step).

(** Builds the action of the class from the configuration and executes it. *)
Definition launch (rt : Runtime) (v : Variant) (config : Config) : Result Launched :=
  match v with
  | AppView =>
      self ← AppViewAction.__init__ config;
      Return (futures [AppViewAction.execute self])
  | AppUpload =>
      self ← AppUploadAction.__init__ config;
      calls ← AppUploadAction.execute rt self;
      Return (futures calls)
  | AppRemove =>
      self ← AppRemoveAction.__init__ config;
      Return (futures (AppRemoveAction.execute self))
  | ProfileUpload =>
      self ← ProfileUploadAction.__init__ config;
      future ← ProfileUploadAction.execute rt self;
      Return (futures [future])
  | ProfileRemove =>
      self ← ProfileRemoveAction.__init__ config;
      Return (futures [ProfileRemoveAction.execute self])
  | ProfileView =>
      self ← ProfileViewAction.__init__ config;
      Return (futures [ProfileViewAction.execute self])
  | RunlistView =>
      self ← RunlistViewAction.__init__ config;
      Return (futures [RunlistViewAction.execute self])
  | RunlistUpload =>
      self ← RunlistUploadAction.__init__ config;
      future ← RunlistUploadAction.execute rt self;
      Return (futures [future])
  | RunlistRemove =>
      self ← RunlistRemoveAction.__init__ config;
      Return (futures [RunlistRemoveAction.execute self])
  | AddApplicationToRunlist =>
      self ← AddApplicationToRunlistAction.__init__ config;
      Return (chain (AddApplicationToRunlistAction.execute rt self))
  | CrashlogList =>
      self ← CrashlogListAction.__init__ config;
      Return (futures [CrashlogListAction.execute self])
  | CrashlogView =>
      self ← CrashlogViewAction.__init__ config;
      Return (futures [(CrashlogViewOrRemoveAction.execute self).1])
  | CrashlogRemove =>
      self ← CrashlogRemoveAction.__init__ config;
      Return (futures [(CrashlogViewOrRemoveAction.execute self).1])
  | CrashlogRemoveAll =>
      self ← CrashlogRemoveAllAction.__init__ config;
      Return (futures [(CrashlogViewOrRemoveAction.execute self).1])
  | AppStart =>
      self ← AppStartAction.__init__ config;
      future ← AppStartAction.execute self;
      Return (futures [future])
  | AppPause =>
      self ← AppPauseAction.__init__ config;
      Return (futures [AppPauseAction.execute self])
  | AppRestart =>
      self ← AppRestartAction.__init__ config;
      Return (chain (AppRestartAction.execute rt self))
  | AppCheck =>
      self ← AppCheckAction.__init__ config;
      Return (futures [(AppCheckAction.execute self).1])
  end.

(** What the execution of a class computes from the values of the
    configuration before it calls a service: the encoding of its files, the
    packing of a raw runlist, the mapping handed to [start_app].  The other
    classes compute nothing. *)
Definition payload (rt : Runtime) (v : Variant) (config : Config) : Result unit :=
  match v with
  | AppUpload =>
      _ ← StorageAction.encodeJson rt (get config "manifest");
      _ ← AppUploadAction.encodePackage rt
            {| AppUploadAction.name := get config "name";
               AppUploadAction.manifest := get config "manifest";
               AppUploadAction.package := get config "package" |};
      Return ()
  | ProfileUpload =>
      _ ← StorageAction.encodeJson rt (get config "manifest");
      Return ()
  | RunlistUpload =>
      _ ← (if truthy (get config "manifest")
           then StorageAction.encodeJson rt (get config "manifest")
           else msgpack_packb rt (get config "runlist-raw"));
      Return ()
  | AppStart =>
      _ ← dict1 (get config "name") (get config "profile");
      Return ()
  | _ => Return ()
  end.

(** * Properties *)

(** ** Splitting list lines *)

Lemma split_not_nil sep s : split sep s <> [].
Proof.
  destruct s as [|c s]; simpl; [done|].
  destruct (Ascii.eqb c sep); [done|]. by destruct (split sep s).
Qed.

Lemma split_plain sep s : contains sep s = false -> split sep s = [s].
Proof.
  induction s as [|c s IH]; simpl; [done|].
  intros [Hc Hs]%orb_false_iff. rewrite Hc, (IH Hs). done.
Qed.

Lemma split_wire sep a b :
  contains sep a = false -> contains sep b = false ->
  split sep (a +:+ String sep b) = [a; b].
Proof.
  intros Ha Hb. induction a as [|c a IH]; simpl in *.
  - rewrite Ascii.eqb_refl. by rewrite (split_plain _ _ Hb).
  - apply orb_false_iff in Ha as [Hc Ha]. rewrite Hc, (IH Ha). done.
Qed.

Lemma split_single sep s b : split sep s = [b] -> s = b.
Proof.
  revert b. induction s as [|c s IH]; simpl; intros b.
  - by intros [= <-].
  - destruct (Ascii.eqb c sep).
    + intros [= _ H]. by apply split_not_nil in H.
    + destruct (split sep s) as [|hd tl] eqn:E; [by apply split_not_nil in E|].
      intros [= <- ->]. f_equal. by apply IH.
Qed.

Lemma split_join sep s a b : split sep s = [a; b] -> s = a +:+ String sep b.
Proof.
  revert a. induction s as [|c s IH]; simpl; intros a; [done|].
  destruct (Ascii.eqb_spec c sep) as [->|Hne].
  - intros [= <- Hs]. by rewrite (split_single _ _ _ Hs).
  - destruct (split sep s) as [|hd tl] eqn:E; [by apply split_not_nil in E|].
    intros [= <- ->]. by rewrite (IH hd eq_refl) at 1.
Qed.

Lemma split_entry entry :
  well_formed entry = true -> unpack2 (split ":" (wire entry)) = Return entry.
Proof.
  destruct entry as [ts name]. unfold well_formed, wire. simpl.
  intros [Hts Hname]%andb_true_iff.
  apply negb_true_iff in Hts, Hname.
  change (ts +:+ ":" +:+ name) with (ts +:+ String ":" name).
  by rewrite split_wire.
Qed.

(** ** parseCrashlogs *)

Section Parse.
Context (rt : Runtime).

(** Lines in the wire format parse to the entries the filter lets through,
    in the order of the chunk, when [ctime] accepts their timestamps. *)
Lemma parseCrashlogs_wire timestamp (dates : string -> string) entries :
  Forall (fun e => well_formed e = true) entries ->
  Forall (fun e => flt timestamp e.1 = true -> ctime_micro rt e.1 = Return (dates e.1))
         entries ->
  parseCrashlogs rt (wire <$> entries) timestamp
  = Return ((fun e => (e.1, dates e.1, e.2))
              <$> List.filter (fun e => flt timestamp e.1) entries).
Proof.
  induction 1 as [|e entries He _ IH]; intros Hd; [done|].
  apply Forall_cons in Hd as [Hd1 Hd]. specialize (IH Hd).
  cbn [fmap list_fmap parseCrashlogs List.filter].
  rewrite (split_entry _ He). destruct e as [ts name]. simpl in *.
  destruct (flt timestamp ts) eqn:Hf.
  - rewrite (Hd1 eq_refl). simpl. by rewrite IH.
  - done.
Qed.

(** Whatever parses was a line split in two at its only colon: the key
    rebuilt from an entry is the line it came from. *)
Lemma parseCrashlogs_unfiltered chunk parsed :
  parseCrashlogs rt chunk PyNone = Return parsed ->
  (fun c : string * string * string => c.1.1 +:+ ":" +:+ c.2) <$> parsed = chunk.
Proof.
  revert parsed. induction chunk as [|line chunk IH]; simpl; intros parsed.
  - by intros [= <-].
  - destruct (split ":" line) as [|ts [|name [|]]] eqn:E; simpl; try done.
    destruct (ctime_micro rt ts) as [date|]; simpl; [|done].
    destruct (parseCrashlogs rt chunk PyNone) as [tl|]; simpl; [|done].
    intros [= <-]. cbn. f_equal; [|by apply IH].
    symmetry. by apply (split_join ":").
Qed.
End Parse.

(** ** The fan-in coordinator of the crash log actions *)

Section FanIn.
Import CrashlogViewOrRemoveAction CrashlogViewOrRemoveAction.Future.
Context (rt : Runtime).

Lemma fan_out_read crashlogs :
  fan_out "read" crashlogs
  = (fun c : string * string * string =>
       issue (storage_read "crashlogs" (PyStr (c.1.1 +:+ ":" +:+ c.2)))) <$> crashlogs.
Proof. induction crashlogs as [|[[ts date] name] tl IH]; [done|]. cbn. by rewrite IH. Qed.

Lemma fan_out_remove crashlogs :
  fan_out "remove" crashlogs
  = (fun c : string * string * string =>
       issue (storage_remove "crashlogs" (PyStr (c.1.1 +:+ ":" +:+ c.2)))) <$> crashlogs.
Proof. induction crashlogs as [|[[ts date] name] tl IH]; [done|]. cbn. by rewrite IH. Qed.

Lemma fan_out_issued method crashlogs :
  (length (issued (fan_out method crashlogs)) <= length crashlogs)%nat.
Proof.
  induction crashlogs as [|[[ts date] name] tl IH]; simpl; [done|].
  destruct (storage_method _ _ _); simpl; lia.
Qed.

Lemma onChunk_issued self chunk :
  messagesLeft self = 0 ->
  Z.of_nat (length (issued (onChunk rt self chunk).2)) <= messagesLeft (onChunk rt self chunk).1.
Proof.
  intros H0. unfold onChunk.
  destruct (parseCrashlogs rt chunk _) as [parsed|e]; simpl; [|lia].
  pose proof (fan_out_issued (method (action self)) parsed).
  destruct parsed; simpl in *; lia.
Qed.

Lemma run_app self evs1 evs2 :
  run rt self (evs1 ++ evs2)
  = let '(self1, effs1) := run rt self evs1 in
    let '(self2, effs2) := run rt self1 evs2 in
    (self2, effs1 ++ effs2).
Proof.
  revert self. induction evs1 as [|ev evs1 IH]; intros self; simpl.
  - by destruct (run rt self evs2).
  - destruct (deliver rt self ev) as [self1 effs1]. rewrite IH.
    destruct (run rt self1 evs1) as [self2 effs2].
    destruct (run rt self2 evs2) as [self3 effs3]. by rewrite app_assoc.
Qed.

(** Only a list chunk sets the counter; a result counts it down by one. *)
Lemma deliver_messagesLeft self ev :
  is_found ev = false ->
  messagesLeft (deliver rt self ev).1
  = messagesLeft self - (if is_result ev then 1 else 0).
Proof. destruct ev; simpl; intros; try done; lia. Qed.

Lemma run_messagesLeft self evs :
  Forall (fun ev => is_found ev = false) evs ->
  messagesLeft (run rt self evs).1 = messagesLeft self - Z.of_nat (length (results evs)).
Proof.
  intros H. revert self. induction H as [|ev evs Hev _ IH]; intros self; simpl; [lia|].
  pose proof (deliver_messagesLeft self ev Hev) as Hd.
  destruct (deliver rt self ev) as [self1 effs1]. specialize (IH self1).
  destruct (run rt self1 evs) as [self2 effs2]. simpl in *.
  rewrite IH, Hd, length_app.
  destruct ev; simpl in *; lia.
Qed.

Lemma results_app evs1 evs2 : results (evs1 ++ evs2) = results evs1 ++ results evs2.
Proof. apply flat_map_app. Qed.

Lemma distinct_below n (l : list nat) :
  NoDup l -> Forall (fun i => (i < n)%nat) l -> (length l <= n)%nat.
Proof.
  intros Hnd Hlt. rewrite <- (length_seq n 0).
  apply NoDup_incl_length; [by apply NoDup_ListNoDup|].
  intros i Hi. apply in_seq. rewrite Forall_forall in Hlt.
  apply list_elem_of_In, Hlt in Hi. lia.
Qed.
End FanIn.

Lemma filter_Permutation_bool {A} (f : A -> bool) (l l' : list A) :
  l ≡ₚ l' -> List.filter f l ≡ₚ List.filter f l'.
Proof.
  induction 1 as [|x l l' _ IH|x y l|l l' l'' _ IH1 _ IH2]; simpl.
  - done.
  - destruct (f x); by rewrite IH.
  - destruct (f x), (f y); try done. apply perm_swap.
  - by rewrite IH1.
Qed.

(** C1: a run of the fan-in coordinator as its producers drive it calls the
    bound doneback more than once.  With an empty list chunk followed by the
    completion of the [find] future, doneback is called by [onChunk] and
    again by [onDone]; with an upstream error followed by the completion,
    by [onError] and again by [onDone]. *)
Theorem C1_doneback_called_twice (rt : Runtime) (action : CrashlogViewOrRemoveAction.t)
    (e : exn) :
  let start := CrashlogViewOrRemoveAction.Future.__init__ action in
  let run := CrashlogViewOrRemoveAction.Future.run rt start in
  fan_in_run
    (length (issued (CrashlogViewOrRemoveAction.Future.onChunk rt start []).2))
    [CrashlogViewOrRemoveAction.Future.find_done]
  /\ donebacks (run [CrashlogViewOrRemoveAction.Future.found [];
                     CrashlogViewOrRemoveAction.Future.find_done]).2 = 2%nat
  /\ donebacks (run [CrashlogViewOrRemoveAction.Future.find_failed e;
                     CrashlogViewOrRemoveAction.Future.find_done]).2 = 2%nat.
Proof.
  split; [|split; reflexivity].
  split; [by repeat constructor|]. split; simpl; constructor.
Qed.

(** One entry, read successfully: doneback is called when the counter
    reaches zero, when the secondary future completes and when the [find]
    future completes. *)
Example doneback_called_three_times :
  let action := {| CrashlogViewOrRemoveAction.name := PyStr "app";
                   CrashlogViewOrRemoveAction.timestamp := PyNone;
                   CrashlogViewOrRemoveAction.method := "read" |} in
  CrashlogViewOrRemoveAction.Future.run test_runtime
    (CrashlogViewOrRemoveAction.Future.__init__ action)
    [ CrashlogViewOrRemoveAction.Future.found ["100:a"];
      CrashlogViewOrRemoveAction.Future.answered 0 (PyStr "trace");
      CrashlogViewOrRemoveAction.Future.closed 0;
      CrashlogViewOrRemoveAction.Future.find_done ]
  = ({| CrashlogViewOrRemoveAction.Future.action := action;
        CrashlogViewOrRemoveAction.Future.messagesLeft := 0 |},
     [ issue (storage_read "crashlogs" (PyStr "100:a"));
       callback (PyStr "trace"); doneback; doneback; doneback ]).
Proof. reflexivity. Qed.

(** C6: when the list chunk leaves no entry after filtering, [onChunk] calls
    doneback at once and issues no secondary storage operation. *)
Theorem C6_empty_filtered_set (rt : Runtime) (self : CrashlogViewOrRemoveAction.Future.t)
    (chunk : list string) :
  parseCrashlogs rt chunk
    (CrashlogViewOrRemoveAction.timestamp (CrashlogViewOrRemoveAction.Future.action self))
  = Return [] ->
  let effs := (CrashlogViewOrRemoveAction.Future.onChunk rt self chunk).2 in
  effs = [doneback] /\ donebacks effs = 1%nat /\ issued effs = [].
Proof.
  intros H. unfold CrashlogViewOrRemoveAction.Future.onChunk. rewrite H. done.
Qed.

Lemma C6_empty_filtered_set_witness :
  let self := CrashlogViewOrRemoveAction.Future.__init__
                {| CrashlogViewOrRemoveAction.name := PyStr "app";
                   CrashlogViewOrRemoveAction.timestamp := PyStr "200";
                   CrashlogViewOrRemoveAction.method := "read" |} in
  let effs := (CrashlogViewOrRemoveAction.Future.onChunk test_runtime self
                 ["100:a"; "300:c"]).2 in
  effs = [doneback] /\ donebacks effs = 1%nat /\ issued effs = [].
Proof.
  apply (C6_empty_filtered_set test_runtime). reflexivity.
Defined.

(** C2: for a list chunk whose entries have the timestamps 100, 200 and 300,
    in any order, and the timestamp filter "200", [onChunk] issues exactly
    one secondary storage operation, on the key "200:<identifier>" rebuilt
    from the timestamp and the identifier of the matching entry. *)
Theorem C2_filter_selects_one_entry (rt : Runtime)
    (self : CrashlogViewOrRemoveAction.Future.t)
    (a b c date : string) (entries : list (string * string)) :
  CrashlogViewOrRemoveAction.timestamp (CrashlogViewOrRemoveAction.Future.action self)
  = PyStr "200" ->
  entries ≡ₚ [("100", a); ("200", b); ("300", c)] ->
  contains ":" a = false -> contains ":" b = false -> contains ":" c = false ->
  ctime_micro rt "200" = Return date ->
  let method := CrashlogViewOrRemoveAction.method
                  (CrashlogViewOrRemoveAction.Future.action self) in
  let result := CrashlogViewOrRemoveAction.Future.onChunk rt self (wire <$> entries) in
  CrashlogViewOrRemoveAction.Future.messagesLeft result.1 = 1
  /\ (method = "read" ->
      result.2 = [issue (storage_read "crashlogs" (PyStr ("200:" +:+ b)))])
  /\ (method = "remove" ->
      result.2 = [issue (storage_remove "crashlogs" (PyStr ("200:" +:+ b)))]).
Proof.
  intros Hts Hperm Ha Hb Hc Hdate method result.
  assert (Hparse : parseCrashlogs rt (wire <$> entries) (PyStr "200")
                   = Return [("200", date, b)]).
  { rewrite (parseCrashlogs_wire rt (PyStr "200") (fun _ => date)).
    - pose proof (filter_Permutation_bool (fun e => flt (PyStr "200") e.1) _ _ Hperm) as Hf.
      change (List.filter _ [("100", a); ("200", b); ("300", c)]) with [("200", b)] in Hf.
      apply Permutation_singleton_r in Hf. by rewrite Hf.
    - rewrite Hperm. repeat constructor; unfold well_formed; simpl; by rewrite ?Ha, ?Hb, ?Hc.
    - rewrite Hperm. repeat constructor; simpl; try done. }
  subst result. unfold CrashlogViewOrRemoveAction.Future.onChunk.
  rewrite Hts, Hparse. simpl. subst method.
  split; [done|]. split; intros ->; reflexivity.
Qed.

Lemma C2_filter_selects_one_entry_witness :
  let self := CrashlogViewOrRemoveAction.Future.__init__
                {| CrashlogViewOrRemoveAction.name := PyStr "app";
                   CrashlogViewOrRemoveAction.timestamp := PyStr "200";
                   CrashlogViewOrRemoveAction.method := "read" |} in
  (CrashlogViewOrRemoveAction.Future.onChunk test_runtime self
     ["300:c"; "100:a"; "200:b"]).2
  = [issue (storage_read "crashlogs" (PyStr "200:b"))].
Proof.
  refine (proj1 (proj2 (C2_filter_selects_one_entry test_runtime
                          (CrashlogViewOrRemoveAction.Future.__init__
                             {| CrashlogViewOrRemoveAction.name := PyStr "app";
                                CrashlogViewOrRemoveAction.timestamp := PyStr "200";
                                CrashlogViewOrRemoveAction.method := "read" |})
                          "a" "b" "c" "ctime 200"
                          [("300", "c"); ("100", "a"); ("200", "b")]
                          eq_refl _ eq_refl eq_refl eq_refl eq_refl)) eq_refl).
  apply Permutation_cons_app with (l1 := [("100", "a"); ("200", "b")]) (l2 := []).
  reflexivity.
Defined.

Lemma parseCrashlogs_all (rt : Runtime) (chunk : list string) :
  Forall (fun line => line_ok rt line = true) chunk ->
  exists parsed, parseCrashlogs rt chunk PyNone = Return parsed
                 /\ length parsed = length chunk.
Proof.
  induction 1 as [|line chunk Hline _ (parsed & IH & Hlen)]; [by exists []|].
  unfold line_ok in Hline. simpl.
  destruct (unpack2 (split ":" line)) as [[ts name]|]; [|done]. simpl.
  destruct (ctime_micro rt ts) as [date|]; [|done]. simpl.
  rewrite IH. simpl. eexists. split; [done|]. simpl. by rewrite Hlen.
Qed.

(** C10: [CrashlogRemoveAllAction] sets the timestamp filter to [None]
    whatever the configuration carries under 'manifest'; on a chunk of
    well-formed lines its [onChunk] lets every entry through and issues one
    [remove] per line of the chunk, on the key of that line. *)
Theorem C10_remove_all_targets_every_entry (rt : Runtime) (config : Config)
    (chunk : list string) :
  truthy (get config "name") = true ->
  Forall (fun line => line_ok rt line = true) chunk ->
  exists self,
    CrashlogRemoveAllAction.__init__ config = Return self
    /\ CrashlogViewOrRemoveAction.timestamp self = PyNone
    /\ CrashlogViewOrRemoveAction.method self = "remove"
    /\ (forall x, flt (CrashlogViewOrRemoveAction.timestamp self) x = true)
    /\ CrashlogViewOrRemoveAction.Future.onChunk rt
         (CrashlogViewOrRemoveAction.Future.__init__ self) chunk
       = ({| CrashlogViewOrRemoveAction.Future.action := self;
             CrashlogViewOrRemoveAction.Future.messagesLeft := Z.of_nat (length chunk) |},
          (if Nat.eqb (length chunk) 0 then [doneback] else [])
            ++ ((fun line => issue (storage_remove "crashlogs" (PyStr line))) <$> chunk)).
Proof.
  intros Hname Hchunk.
  unfold CrashlogRemoveAllAction.__init__, CrashlogViewOrRemoveAction.__init__, get.
  rewrite lookup_insert_eq, lookup_insert_ne by done.
  unfold get in Hname. rewrite Hname. simpl.
  eexists. split; [done|]. simpl. do 3 (split; [done|]).
  unfold CrashlogViewOrRemoveAction.Future.onChunk. simpl.
  destruct (parseCrashlogs_all rt chunk Hchunk) as (parsed & Hparse & Hlen).
  rewrite Hparse, Hlen, (fan_out_remove parsed).
  do 2 f_equal.
  rewrite <- (parseCrashlogs_unfiltered rt chunk parsed Hparse).
  by rewrite <- list_fmap_compose.
Qed.

Lemma C10_remove_all_targets_every_entry_witness :
  exists self,
    CrashlogRemoveAllAction.__init__
      (<["manifest" := PyStr "200"]> (<["name" := PyStr "app"]> ∅)) = Return self
    /\ CrashlogViewOrRemoveAction.timestamp self = PyNone
    /\ CrashlogViewOrRemoveAction.method self = "remove"
    /\ (forall x, flt (CrashlogViewOrRemoveAction.timestamp self) x = true)
    /\ CrashlogViewOrRemoveAction.Future.onChunk test_runtime
         (CrashlogViewOrRemoveAction.Future.__init__ self) ["100:a"; "200:b"]
       = ({| CrashlogViewOrRemoveAction.Future.action := self;
             CrashlogViewOrRemoveAction.Future.messagesLeft := 2 |},
          [ issue (storage_remove "crashlogs" (PyStr "100:a"));
            issue (storage_remove "crashlogs" (PyStr "200:b")) ]).
Proof.
  apply (C10_remove_all_targets_every_entry test_runtime
           (<["manifest" := PyStr "200"]> (<["name" := PyStr "app"]> ∅))
           ["100:a"; "200:b"]).
  - reflexivity.
  - repeat constructor.
Defined.

(** Two results from the one secondary request: the counter ends below
    zero. *)
Lemma C8_counter_goes_negative :
  let action := {| CrashlogViewOrRemoveAction.name := PyStr "app";
                   CrashlogViewOrRemoveAction.timestamp := PyNone;
                   CrashlogViewOrRemoveAction.method := "read" |} in
  CrashlogViewOrRemoveAction.Future.messagesLeft
    (CrashlogViewOrRemoveAction.Future.run test_runtime
       (CrashlogViewOrRemoveAction.Future.__init__ action)
       [ CrashlogViewOrRemoveAction.Future.found ["100:a"];
         CrashlogViewOrRemoveAction.Future.answered 0 (PyStr "trace");
         CrashlogViewOrRemoveAction.Future.failed 0 (ServiceError "late") ]).1
  = -1.
Proof. reflexivity. Qed.

(** C8: [onChunk] sets the counter [messagesLeft] to the number of filtered
    entries; as long as no further list chunk arrives, every later event
    leaves it unchanged, except the delivery of a secondary result (a chunk
    or an error), which counts it down by one, unguarded: after any such
    events the counter is the number of filtered entries minus the number of
    results delivered, so it is not negative exactly when no more results
    were delivered than it was set to, as when each request delivers at most
    one result. *)
Theorem C8_counter_counts_results (rt : Runtime) (action : CrashlogViewOrRemoveAction.t)
    (chunk : list string) (evs : list CrashlogViewOrRemoveAction.Future.Event) :
  let start := CrashlogViewOrRemoveAction.Future.onChunk rt
                 (CrashlogViewOrRemoveAction.Future.__init__ action) chunk in
  let left evs := CrashlogViewOrRemoveAction.Future.messagesLeft
                    (CrashlogViewOrRemoveAction.Future.run rt start.1 evs).1 in
  Forall (fun ev => is_found ev = false) evs ->
  (forall parsed,
      parseCrashlogs rt chunk (CrashlogViewOrRemoveAction.timestamp action) = Return parsed ->
      left [] = Z.of_nat (length parsed))
  /\ (forall pre ev post, evs = pre ++ ev :: post ->
       left (pre ++ [ev]) = left pre - (if is_result ev then 1 else 0))
  /\ left evs = left [] - Z.of_nat (length (results evs))
  /\ (0 <= left evs <-> Z.of_nat (length (results evs)) <= left [])
  /\ (fan_in_run (length (issued start.2)) evs -> 0 <= left evs).
Proof.
  intros start left Hfound. subst left. cbn beta.
  assert (Hcount : forall evs', Forall (fun ev => is_found ev = false) evs' ->
            CrashlogViewOrRemoveAction.Future.messagesLeft
              (CrashlogViewOrRemoveAction.Future.run rt start.1 evs').1
            = CrashlogViewOrRemoveAction.Future.messagesLeft start.1
              - Z.of_nat (length (results evs'))).
  { intros evs' H. by apply run_messagesLeft. }
  split; [|split; [|split; [|split]]].
  - intros parsed Hparse. simpl. subst start.
    unfold CrashlogViewOrRemoveAction.Future.onChunk. simpl. by rewrite Hparse.
  - intros pre ev post ->.
    apply Forall_app in Hfound as [Hpre Hrest].
    apply Forall_cons in Hrest as [Hev Hpost].
    rewrite !Hcount; [|done|apply Forall_app; split; [done|by constructor]].
    rewrite results_app, length_app. destruct ev; simpl in *; lia.
  - rewrite (Hcount evs Hfound). simpl. lia.
  - rewrite (Hcount evs Hfound). simpl. lia.
  - intros (_ & Hnodup & Hbelow). rewrite (Hcount evs Hfound).
    pose proof (distinct_below _ _ Hnodup Hbelow) as Hlen.
    pose proof (onChunk_issued rt (CrashlogViewOrRemoveAction.Future.__init__ action)
                  chunk eq_refl) as Hn.
    fold start in Hn. lia.
Qed.

Lemma C8_counter_counts_results_witness :
  let action := {| CrashlogViewOrRemoveAction.name := PyStr "app";
                   CrashlogViewOrRemoveAction.timestamp := PyNone;
                   CrashlogViewOrRemoveAction.method := "read" |} in
  let evs := [ CrashlogViewOrRemoveAction.Future.answered 1 (PyStr "trace");
               CrashlogViewOrRemoveAction.Future.closed 1;
               CrashlogViewOrRemoveAction.Future.failed 0 (ServiceError "gone");
               CrashlogViewOrRemoveAction.Future.closed 0;
               CrashlogViewOrRemoveAction.Future.find_done ] in
  let start := CrashlogViewOrRemoveAction.Future.onChunk test_runtime
                 (CrashlogViewOrRemoveAction.Future.__init__ action) ["100:a"; "200:b"] in
  CrashlogViewOrRemoveAction.Future.messagesLeft start.1 = 2
  /\ CrashlogViewOrRemoveAction.Future.messagesLeft
       (CrashlogViewOrRemoveAction.Future.run test_runtime start.1 evs).1
     = 2 - Z.of_nat (length (results evs)).
Proof.
  intros action evs start.
  assert (Hfound : Forall (fun ev => is_found ev = false) evs) by (by repeat constructor).
  destruct (C8_counter_counts_results test_runtime action ["100:a"; "200:b"] evs Hfound)
    as (Hset & _ & Hcount & _).
  split; [exact (Hset _ eq_refl)|exact Hcount].
Defined.

(** ** Status checks and restarts *)

Lemma absent_app_KeyError (info name : PyVal) (rest : PyVal -> Result PyVal) :
  absent_app info name = true ->
  exists key,
    (apps ← getitem info (PyStr "apps"); app ← getitem apps name; rest app)
    = Raise (KeyError key).
Proof.
  unfold absent_app. destruct info as [| | | |d]; try done. simpl.
  destruct (dict_get (KStr "apps") d) as [[| | | |apps]|]; try done; simpl.
  - destruct (as_key name) as [k|]; [|done].
    destruct (dict_get k apps); [done|]. by eexists.
  - by eexists.
Qed.

(** C9: every status chunk makes [onChunk] of the check call the bound
    callback exactly once, with the one-entry map from the name to the state
    the snapshot holds for the application, and never errorback; when the
    snapshot has an entry with a state for the application, that state is
    reported and nothing else happens; when the snapshot has no entry for the
    application, or no 'apps' key, the state is 'stopped or missing', nothing
    is raised and errorback is not called. *)
Theorem C9_check_reports_once (self : AppCheckAction.Future.t) (chunk : PyVal) (k : Key) :
  let name := AppCheckAction.name (AppCheckAction.Future.action self) in
  as_key name = Some k ->
  callbacks (AppCheckAction.Future.onChunk self chunk)
  = [PyDict [(k, reported_state chunk name)]]
  /\ errorbacks (AppCheckAction.Future.onChunk self chunk) = []
  /\ (forall d apps app state,
        chunk = PyDict d ->
        dict_get (KStr "apps") d = Some (PyDict apps) ->
        dict_get k apps = Some (PyDict app) ->
        dict_get (KStr "state") app = Some state ->
        AppCheckAction.Future.onChunk self chunk = [callback (PyDict [(k, state)])])
  /\ (absent_app chunk name = true ->
      AppCheckAction.Future.onChunk self chunk
      = [callback (PyDict [(k, PyStr "stopped or missing")])]
      /\ errors (AppCheckAction.Future.onChunk self chunk) = 0%nat).
Proof.
  intros name Hk. subst name.
  unfold AppCheckAction.Future.onChunk, dict1, reported_state,
    AppCheckAction.Future.lookup_state.
  rewrite Hk. split; [|split; [|split]].
  - destruct (getitem chunk (PyStr "apps")) as [apps|[]]; simpl; try done;
      destruct (getitem apps _) as [app|[]]; simpl; try done;
      destruct (getitem app (PyStr "state")) as [state|[]]; simpl; done.
  - destruct (getitem chunk (PyStr "apps")) as [apps|[]]; simpl; try done;
      destruct (getitem apps _) as [app|[]]; simpl; try done;
      destruct (getitem app (PyStr "state")) as [state|[]]; simpl; done.
  - intros d apps app state -> Happs Happ Hstate. simpl.
    rewrite Happs. simpl. rewrite Hk, Happ. simpl. by rewrite Hstate.
  - intros Habs.
    apply (absent_app_KeyError _ _ (fun app => getitem app (PyStr "state"))) in Habs
      as [key Habs].
    by rewrite Habs.
Qed.

Lemma C9_check_reports_once_witness :
  let self := AppCheckAction.Future.__init__ {| AppCheckAction.name := PyStr "web" |} in
  let running :=
    PyDict [(KStr "apps", PyDict [(KStr "web", PyDict [(KStr "state", PyStr "running")])])] in
  let others :=
    PyDict [(KStr "apps", PyDict [(KStr "mail", PyDict [(KStr "state", PyStr "running")])])] in
  AppCheckAction.Future.onChunk self running
  = [callback (PyDict [(KStr "web", PyStr "running")])]
  /\ AppCheckAction.Future.onChunk self others
     = [callback (PyDict [(KStr "web", PyStr "stopped or missing")])]
  /\ errors (AppCheckAction.Future.onChunk self others) = 0%nat.
Proof.
  intros self running others. split.
  - destruct (C9_check_reports_once self running (KStr "web") eq_refl)
      as (_ & _ & Hpresent & _).
    exact (Hpresent _ _ _ _ eq_refl eq_refl eq_refl eq_refl).
  - destruct (C9_check_reports_once self others (KStr "web") eq_refl)
      as (_ & _ & _ & Habsent).
    exact (Habsent eq_refl).
Defined.

(** C4: when the status snapshot has no entry for the application and no
    profile was given, the restart generator stops after the status request
    with the ToolsError 'Application "<name>" is not running and profile not
    specified'; neither the pause nor the start request is issued. *)
Theorem C4_restart_not_running (rt : Runtime) (config : Config) (self : AppRestartAction.t)
    (info : PyVal) (responses : list (Result PyVal)) :
  AppRestartAction.__init__ config = Return self ->
  truthy (get config "profile") = false ->
  absent_app info (get config "name") = true ->
  let outcome := feed (AppRestartAction.doAction rt self) (Return info :: responses) in
  outcome.2 = Failed (ToolsError ("Application " +:+ dq +:+ py_str rt (get config "name") +:+ dq
                                  +:+ " is not running and profile not specified"))
  /\ calls_of outcome.1 = [node_info].
Proof.
  unfold AppRestartAction.__init__.
  destruct (truthy (get config "name")); simpl; [|done].
  intros [= <-] Hprofile Habs.
  apply (absent_app_KeyError _ _ (fun app => getitem app (PyStr "profile"))) in Habs
    as [key Habs].
  unfold AppRestartAction.doAction, AppRestartAction.resolve_profile. simpl.
  rewrite Hprofile, Habs. done.
Qed.

Lemma C4_restart_not_running_witness :
  let config : Config := {[ "name" := PyStr "web"; "host" := PyStr "localhost" ]} in
  let self := {| AppRestartAction.config := config;
                 AppRestartAction.name := PyStr "web";
                 AppRestartAction.profile := PyNone |} in
  let info := PyDict [(KStr "apps", PyDict [])] in
  let outcome := feed (AppRestartAction.doAction test_runtime self)
                      [Return info; Return PyNone] in
  outcome.2 = Failed (ToolsError ("Application " +:+ dq +:+ "web" +:+ dq
                                  +:+ " is not running and profile not specified"))
  /\ calls_of outcome.1 = [node_info].
Proof.
  exact (C4_restart_not_running test_runtime
           {[ "name" := PyStr "web"; "host" := PyStr "localhost" ]}
           {| AppRestartAction.config :=
                {[ "name" := PyStr "web"; "host" := PyStr "localhost" ]};
              AppRestartAction.name := PyStr "web";
              AppRestartAction.profile := PyNone |}
           (PyDict [(KStr "apps", PyDict [])]) [Return PyNone]
           eq_refl eq_refl eq_refl).
Defined.

(** ** Payload errors *)

Lemma encodeJson_bad_source (rt : Runtime) (path : PyVal) :
  unreadable rt path || not_json rt path = true ->
  exists msg, StorageAction.encodeJson rt path = Raise (CocaineError msg).
Proof.
  unfold unreadable, not_json, StorageAction.encodeJson.
  destruct (read_file rt path) as [content|[]]; simpl; try done; [|by eexists].
  destruct (json_loads rt content) as [data|[]]; simpl; try done. by eexists.
Qed.

Lemma encodePackage_bad_source (rt : Runtime) (self : AppUploadAction.t) :
  not_archive rt (AppUploadAction.package self) = true ->
  exists msg, AppUploadAction.encodePackage rt self = Raise (CocaineError msg).
Proof.
  unfold not_archive, unreadable, AppUploadAction.encodePackage.
  destruct (is_tarfile rt _) as [[]|[]]; simpl; try done; try by eexists.
  destruct (read_file rt _) as [content|[]]; simpl; try done. by eexists.
Qed.

(** C7: when the source file of an upload is unreadable or is not JSON, or
    the package of an application is unreadable or is not a tar archive,
    [execute] raises a CocaineError from the encode step and no write call
    of the storage service is issued. *)
Theorem C7_bad_source_raises_before_write (rt : Runtime) (u : Upload) :
  bad_source rt u = true ->
  (exists msg, execute_upload rt u = Raise (CocaineError msg))
  /\ written (execute_upload rt u) = [].
Proof.
  intros Hbad.
  assert (H : exists msg, execute_upload rt u = Raise (CocaineError msg)).
  { destruct u as [self|self]; simpl in *.
    - unfold AppUploadAction.execute.
      destruct (unreadable rt (AppUploadAction.manifest self)
                || not_json rt (AppUploadAction.manifest self)) eqn:Hjson.
      + destruct (encodeJson_bad_source rt _ Hjson) as [msg ->]. by eexists.
      + simpl in Hbad.
        destruct (StorageAction.encodeJson rt (AppUploadAction.manifest self)); [|done].
        destruct (encodePackage_bad_source rt self Hbad) as [msg Hpkg].
        simpl. rewrite Hpkg. by eexists.
    - unfold ProfileUploadAction.execute.
      destruct (encodeJson_bad_source rt _ Hbad) as [msg ->]. by eexists. }
  split; [done|]. destruct H as [msg ->]. done.
Qed.

Lemma C7_bad_source_raises_before_write_witness :
  let u := app_upload {| AppUploadAction.name := PyStr "web";
                         AppUploadAction.manifest := PyStr "manifest.json";
                         AppUploadAction.package := PyStr "notes.txt" |} in
  (exists msg, execute_upload test_runtime u = Raise (CocaineError msg))
  /\ written (execute_upload test_runtime u) = [].
Proof.
  exact (C7_bad_source_raises_before_write test_runtime
           (app_upload {| AppUploadAction.name := PyStr "web";
                          AppUploadAction.manifest := PyStr "manifest.json";
                          AppUploadAction.package := PyStr "notes.txt" |})
           eq_refl).
Defined.

(** ** The chain that adds an application to a runlist *)

Lemma setitem_truthy (c key value c' : PyVal) :
  setitem c key value = Return c' -> truthy c' = true.
Proof.
  destruct c as [| | |l|d]; simpl; try done.
  - destruct key as [|i| | |]; try done.
    destruct (_ && _) eqn:Hrange; [|done]. intros [= <-]. simpl.
    destruct l; simpl in *; [|by destruct (Z.to_nat _)].
    apply andb_true_iff in Hrange as [?%Z.leb_le ?%Z.ltb_lt]. lia.
  - destruct (as_key key) as [k|]; [|done]. intros [= <-].
    destruct d as [|[k' v'] d]; simpl; [done|]. by destruct (Key_eqb k k').
Qed.

Lemma dict_get_set (k : Key) (v : PyVal) (d : list (Key * PyVal)) :
  dict_get k (dict_set k v d) = Some v.
Proof.
  assert (Hrefl : Key_eqb k k = true).
  { destruct k; simpl; [done|apply Z.eqb_refl|apply String.eqb_refl]. }
  induction d as [|[k' v'] d IH]; simpl; [by rewrite Hrefl|].
  destruct (Key_eqb k k') eqn:E; simpl; [by rewrite Hrefl|by rewrite E].
Qed.

(** C5: [execute] of AddApplicationToRunlistAction returns a chain of exactly
    three steps, in this order: reading the runlist by name; decoding the
    result of the read and setting the entry app -> profile in it; writing
    the merged runlist back under the same name.  The second step takes the
    result of the read (and fails with it when the read failed), the third
    the runlist merged by the second. *)
Theorem C5_add_to_runlist_chain (rt : Runtime) (config : Config)
    (self : AddApplicationToRunlistAction.t) :
  AddApplicationToRunlistAction.__init__ config = Return self ->
  exists read merge write,
    AddApplicationToRunlistAction.execute rt self = [step0 read; step1 merge; step1 write]
    /\ read = Return (Awaits (storage_read "runlists" (get config "name")))
    /\ (forall e, merge (Raise e) = Raise e)
    /\ forall packed d k blob,
         msgpack_loads rt packed = Return (PyDict d) ->
         as_key (get config "app") = Some k ->
         msgpack_packb rt (PyDict (dict_set k (get config "profile") d)) = Return blob ->
         let merged := PyDict (dict_set k (get config "profile") d) in
         merge (Return packed) = Return (Immediate merged)
         /\ dict_get k (dict_set k (get config "profile") d) = Some (get config "profile")
         /\ write (Return merged)
            = Return (Awaits (storage_write "runlists" (get config "name") blob RUNLISTS_TAGS)).
Proof.
  unfold AddApplicationToRunlistAction.__init__, SpecificRunlistAction.__init__.
  destruct (truthy (get config "name")) eqn:Hname; simpl; [|done].
  destruct (truthy (get config "app")) eqn:Happ; simpl; [|done].
  destruct (truthy (get config "profile")) eqn:Hprofile; simpl; [|done].
  intros [= <-]. do 3 eexists. split; [reflexivity|]. simpl.
  split.
  { unfold AddApplicationToRunlistAction.getRunlist, RunlistViewAction.__init__,
      SpecificRunlistAction.__init__. simpl.
    assert (Hcfg : get ({[ "name" := get config "name" ]} : Config) "name"
                   = get config "name").
    { unfold get. by simplify_map_eq. }
    rewrite Hcfg, Hname. done. }
  split; [done|].
  intros packed d k blob Hloads Hkey Hpack.
  split; [|split; [apply dict_get_set|]].
  - rewrite Hloads. simpl. by rewrite Hkey.
  - assert (Ht : truthy (PyDict (dict_set k (get config "profile") d)) = true).
    { destruct d as [|[k' v'] d]; simpl; [done|]. by destruct (Key_eqb k k'). }
    unfold RunlistUploadAction.__init__, SpecificRunlistAction.__init__,
      RunlistUploadAction.execute.
    assert (Hcfg : forall raw : PyVal,
               get ({[ "name" := get config "name"; "runlist-raw" := raw ]} : Config) "name"
               = get config "name"
               /\ get ({[ "name" := get config "name"; "runlist-raw" := raw ]} : Config)
                      "manifest" = PyNone
               /\ get ({[ "name" := get config "name"; "runlist-raw" := raw ]} : Config)
                      "runlist-raw" = raw).
    { intros raw. unfold get. by simplify_map_eq. }
    destruct (Hcfg (PyDict (dict_set k (get config "profile") d))) as (-> & -> & ->).
    rewrite Hname. simpl. simpl in Ht. rewrite Ht. simpl. by rewrite Hpack.
Qed.

Lemma C5_add_to_runlist_chain_witness :
  let config : Config :=
    {[ "name" := PyStr "default"; "app" := PyStr "web"; "profile" := PyStr "fast" ]} in
  let self := {| AddApplicationToRunlistAction.name := PyStr "default";
                 AddApplicationToRunlistAction.app := PyStr "web";
                 AddApplicationToRunlistAction.profile := PyStr "fast" |} in
  exists read merge write,
    AddApplicationToRunlistAction.execute test_runtime self
    = [step0 read; step1 merge; step1 write]
    /\ read = Return (Awaits (storage_read "runlists" (PyStr "default")))
    /\ merge (Return (PyStr "map:"))
       = Return (Immediate (PyDict [(KStr "web", PyStr "fast")]))
    /\ write (Return (PyDict [(KStr "web", PyStr "fast")]))
       = Return (Awaits (storage_write "runlists" (PyStr "default") "map:web=fast"
                           RUNLISTS_TAGS)).
Proof.
  intros config self.
  destruct (C5_add_to_runlist_chain test_runtime config self eq_refl)
    as (read & merge & write & Hchain & Hread & _ & Hsteps).
  exists read, merge, write.
  destruct (Hsteps (PyStr "map:") [] (KStr "web") "map:web=fast" eq_refl eq_refl eq_refl)
    as (Hmerge & _ & Hwrite).
  split; [exact Hchain|]. split; [exact Hread|]. split; [exact Hmerge|exact Hwrite].
Defined.

(** ** Validation at construction *)

Lemma get_insert_ne (config : Config) (k k' : string) (v : PyVal) :
  k <> k' -> get (<[k := v]> config) k' = get config k'.
Proof. intros. unfold get. by rewrite lookup_insert_ne. Qed.

(** The constructions that take place while the chain of
    AddApplicationToRunlistAction runs find their parameters: the name was
    checked when the action was built, and a merged runlist is never empty. *)
Lemma chain_constructions_succeed (rt : Runtime) (config : Config)
    (self : AddApplicationToRunlistAction.t) (result : Result PyVal) (merged : PyVal) :
  AddApplicationToRunlistAction.__init__ config = Return self ->
  AddApplicationToRunlistAction.parseRunlist rt self result = Return (Immediate merged) ->
  (exists view,
      RunlistViewAction.__init__ {[ "name" := AddApplicationToRunlistAction.name self ]}
      = Return view)
  /\ exists upload,
      RunlistUploadAction.__init__
        {[ "name" := AddApplicationToRunlistAction.name self; "runlist-raw" := merged ]}
      = Return upload.
Proof.
  unfold AddApplicationToRunlistAction.__init__, SpecificRunlistAction.__init__.
  destruct (truthy (get config "name")) eqn:Hname; simpl; [|done].
  destruct (truthy (get config "app")); simpl; [|done].
  destruct (truthy (get config "profile")); simpl; [|done].
  intros [= <-]. simpl.
  unfold AddApplicationToRunlistAction.parseRunlist. simpl.
  destruct result as [packed|]; simpl; [|done].
  destruct (msgpack_loads rt packed) as [runlist|]; simpl; [|done].
  destruct (setitem runlist _ _) as [runlist'|] eqn:Hset; simpl; [|done].
  intros [= <-]. apply setitem_truthy in Hset.
  unfold RunlistViewAction.__init__, RunlistUploadAction.__init__,
    SpecificRunlistAction.__init__.
  assert (Hcfg1 : get ({[ "name" := get config "name" ]} : Config) "name"
                  = get config "name") by (unfold get; by simplify_map_eq).
  assert (Hcfg2 : get ({[ "name" := get config "name"; "runlist-raw" := runlist' ]} : Config)
                      "name" = get config "name"
                  /\ get ({[ "name" := get config "name"; "runlist-raw" := runlist' ]} : Config)
                         "runlist-raw" = runlist')
    by (unfold get; by simplify_map_eq).
  destruct Hcfg2 as [-> ->]. rewrite Hcfg1, Hname, Hset. simpl.
  rewrite orb_true_r. simpl. split; by eexists.
Qed.

(** The constructor of a class raises ValueError exactly when a required
    parameter is missing or empty; when it returns, every required parameter
    is stored, not empty, in the object that [execute] works on. *)
Lemma required_checked_at_construction (v : Variant) (config : Config) :
  if lacks_required v config
  then exists msg, construct v config = Raise (ValueError msg)
  else exists attrs, construct v config = Return attrs
                     /\ forallb (provided attrs) (required v) = true.
Proof.
  destruct v;
    unfold lacks_required, missing, required, construct,
      AppViewAction.__init__, AppUploadAction.__init__, AppRemoveAction.__init__,
      ProfileUploadAction.__init__, ProfileRemoveAction.__init__, ProfileViewAction.__init__,
      RunlistViewAction.__init__, RunlistUploadAction.__init__, RunlistRemoveAction.__init__,
      AddApplicationToRunlistAction.__init__,
      CrashlogListAction.__init__, CrashlogViewAction.__init__,
      CrashlogRemoveAction.__init__, CrashlogRemoveAllAction.__init__,
      CrashlogViewOrRemoveAction.__init__, AppStartAction.__init__,
      AppPauseAction.__init__, AppRestartAction.__init__, AppCheckAction.__init__,
      SpecificProfileAction.__init__, SpecificRunlistAction.__init__;
    rewrite ?get_insert_ne by done; simpl;
    repeat match goal with
      | |- context [truthy (get config ?k)] =>
          let E := fresh "E" in destruct (truthy (get config k)) eqn:E; simpl
      end;
    try (by eexists);
    (eexists; split; [reflexivity|]; simpl; by rewrite ?E, ?E0, ?E1).
Qed.

(** Building and executing an action from a configuration that lacks no
    required parameter fails exactly when the payload computed from the
    values fails, with that exception. *)
Lemma launch_fails_with_payload (rt : Runtime) (v : Variant) (config : Config) (e : exn) :
  lacks_required v config = false ->
  launch rt v config = Raise e <-> payload rt v config = Raise e.
Proof.
  destruct v;
    unfold lacks_required, missing, required, launch, payload,
      AppViewAction.__init__, AppUploadAction.__init__, AppRemoveAction.__init__,
      ProfileUploadAction.__init__, ProfileRemoveAction.__init__, ProfileViewAction.__init__,
      RunlistViewAction.__init__, RunlistUploadAction.__init__, RunlistRemoveAction.__init__,
      AddApplicationToRunlistAction.__init__,
      CrashlogListAction.__init__, CrashlogViewAction.__init__,
      CrashlogRemoveAction.__init__, CrashlogRemoveAllAction.__init__,
      CrashlogViewOrRemoveAction.__init__, AppStartAction.__init__,
      AppPauseAction.__init__, AppRestartAction.__init__, AppCheckAction.__init__,
      SpecificProfileAction.__init__, SpecificRunlistAction.__init__,
      AppUploadAction.execute, ProfileUploadAction.execute, RunlistUploadAction.execute,
      AppStartAction.execute;
    rewrite ?get_insert_ne by done; simpl;
    repeat match goal with
      | |- context [truthy (get config ?k)] =>
          let E := fresh "E" in destruct (truthy (get config k)) eqn:E; simpl
      end;
    try done; intros _; rewrite ?E, ?E0, ?E1; simpl;
    repeat match goal with
      | |- context [StorageAction.encodeJson ?r ?x] =>
          destruct (StorageAction.encodeJson r x); simpl
      | |- context [AppUploadAction.encodePackage ?r ?x] =>
          destruct (AppUploadAction.encodePackage r x); simpl
      | |- context [msgpack_packb ?r ?x] => destruct (msgpack_packb r x); simpl
      | |- context [dict1 ?x ?y] => destruct (dict1 x y); simpl
      end;
    first [done | split; by intros [= ->]].
Qed.

(** A restart built without a profile, with host and port: the constructor
    returns, and the profile that is missing surfaces while the chain runs.
    For an application that is not running it is the ToolsError of the
    lookup; for a snapshot with an empty profile it is the ValueError of the
    constructor of AppStartAction, wrapped in a ToolsError, after the pause. *)
Lemma C3_restart_fails_at_execution :
  let config : Config :=
    {[ "name" := PyStr "web"; "host" := PyStr "localhost"; "port" := PyInt 10053 ]} in
  lacks_required AppRestart config = false
  /\ exists self,
      AppRestartAction.__init__ config = Return self
      /\ launch test_runtime AppRestart config
         = Return (chain [stepgen (AppRestartAction.doAction test_runtime self)])
      /\ feed (AppRestartAction.doAction test_runtime self)
              [Return (PyDict [(KStr "apps", PyDict [])])]
         = ([yield_future node_info],
            Failed (ToolsError ("Application " +:+ dq +:+ "web" +:+ dq
                                +:+ " is not running and profile not specified")))
      /\ feed (AppRestartAction.doAction test_runtime self)
              [Return (PyDict [(KStr "apps",
                                PyDict [(KStr "web",
                                         PyDict [(KStr "profile", PyStr "")])])]);
               Return PyNone]
         = ([yield_future node_info; yield_future (node_pause_app [PyStr "web"])],
            Failed (ToolsError "Unknown error - Please specify profile name")).
Proof. split; [reflexivity|]. eexists. repeat split; reflexivity. Qed.

(** C3: for every class with required parameters the constructor raises
    ValueError exactly when a required parameter is missing or empty, so that
    building and executing the action raises it before [execute] is reached;
    otherwise the constructor stores each required value, not empty, in the
    object.  Building and executing an action whose required parameters are
    given fails only when the payload computed from the checked values fails
    (encoding a file, packing a raw runlist, building the mapping for the
    start), with that exception, and the constructors that the chain of
    AddApplicationToRunlistAction calls while it runs always return.
    AppRestartAction is the exception: it checks only the name, its profile
    is optional and resolved from the status snapshot while its chain runs,
    and a profile missing there comes out of the chain as a ToolsError. *)
Theorem C3_parameters_checked_before_execution (rt : Runtime) (v : Variant)
    (config : Config) :
  (if lacks_required v config
   then (exists msg, construct v config = Raise (ValueError msg))
        /\ exists msg, launch rt v config = Raise (ValueError msg)
   else exists attrs, construct v config = Return attrs
                      /\ forallb (provided attrs) (required v) = true)
  /\ (lacks_required v config = false ->
      forall e, launch rt v config = Raise e <-> payload rt v config = Raise e)
  /\ (forall self result merged,
        AddApplicationToRunlistAction.__init__ config = Return self ->
        AddApplicationToRunlistAction.parseRunlist rt self result
        = Return (Immediate merged) ->
        (exists view,
            RunlistViewAction.__init__
              {[ "name" := AddApplicationToRunlistAction.name self ]} = Return view)
        /\ exists upload,
            RunlistUploadAction.__init__
              {[ "name" := AddApplicationToRunlistAction.name self;
                 "runlist-raw" := merged ]} = Return upload)
  /\ (forall self info responses,
        AppRestartAction.__init__ config = Return self ->
        truthy (get config "profile") = false ->
        absent_app info (get config "name") = true ->
        launch rt AppRestart config
        = Return (chain [stepgen (AppRestartAction.doAction rt self)])
        /\ exists msg,
            (feed (AppRestartAction.doAction rt self) (Return info :: responses)).2
            = Failed (ToolsError msg)).
Proof.
  split; [|split; [|split]].
  - pose proof (required_checked_at_construction v config) as H.
    destruct (lacks_required v config) eqn:Hlacks; [|done].
    destruct H as [msg H]. split; [by exists msg|]. exists msg.
    revert H. clear Hlacks.
    destruct v; unfold construct, launch;
      match goal with
      | |- context [mbind _ ?m] => destruct m; simpl; [done|by intros [= ->]]
      end.
  - intros Hlacks e. by apply launch_fails_with_payload.
  - intros self result merged Hinit Hparse.
    by apply (chain_constructions_succeed rt config self result merged).
  - intros self info responses Hinit Hprofile Habs.
    unfold launch. rewrite Hinit. split; [done|].
    unfold AppRestartAction.__init__ in Hinit.
    destruct (truthy (get config "name")); simpl in Hinit; [|done].
    injection Hinit as <-.
    apply (absent_app_KeyError _ _ (fun app => getitem app (PyStr "profile"))) in Habs
      as [key Habs].
    unfold AppRestartAction.doAction, AppRestartAction.resolve_profile. simpl.
    rewrite Hprofile, Habs. by eexists.
Qed.

Lemma C3_parameters_checked_before_execution_witness :
  (exists msg,
      construct AppUpload {[ "name" := PyStr "web"; "manifest" := PyStr "" ]}
      = Raise (ValueError msg))
  /\ (exists attrs,
         construct AppStart {[ "name" := PyStr "web"; "profile" := PyStr "fast" ]}
         = Return attrs
         /\ forallb (provided attrs) (required AppStart) = true)
  /\ (forall e,
         launch test_runtime ProfileUpload
           {[ "name" := PyStr "default"; "manifest" := PyStr "broken.json" ]} = Raise e
         <-> payload test_runtime ProfileUpload
               {[ "name" := PyStr "default"; "manifest" := PyStr "broken.json" ]} = Raise e).
Proof.
  split; [|split].
  - exact (proj1 (proj1 (C3_parameters_checked_before_execution test_runtime AppUpload
                           {[ "name" := PyStr "web"; "manifest" := PyStr "" ]}))).
  - exact (proj1 (C3_parameters_checked_before_execution test_runtime AppStart
                    {[ "name" := PyStr "web"; "profile" := PyStr "fast" ]})).
  - apply (proj1 (proj2 (C3_parameters_checked_before_execution test_runtime ProfileUpload
                           {[ "name" := PyStr "default";
                              "manifest" := PyStr "broken.json" ]}))).
    reflexivity.
Defined.

(** * Further properties *)

(** ** Lines and filters of parseCrashlogs *)

Lemma split_length sep s : length (split sep s) = S (occurrences sep s).
Proof.
  induction s as [|c s IH]; simpl; [done|].
  destruct (Ascii.eqb c sep); simpl; [by rewrite IH|].
  destruct (split sep s); simpl in *; lia.
Qed.

Lemma split_fields sep s : Forall (fun field => contains sep field = false) (split sep s).
Proof.
  induction s as [|c s IH]; simpl; [by repeat constructor|].
  destruct (Ascii.eqb c sep) eqn:E; [by constructor|].
  destruct (split sep s) as [|hd tl].
  - constructor; [|done]. simpl. by rewrite E.
  - apply Forall_cons in IH as [Hhd Htl]. constructor; [|done]. simpl. by rewrite E, Hhd.
Qed.

(** X1: a list line is unpacked into a timestamp and a name exactly when it
    holds one colon; the two fields are then the parts of the line around
    that colon, and neither holds a colon. *)
Theorem X1_line_unpacks_iff_one_colon (line : string) :
  (exists ts name,
      unpack2 (split ":" line) = Return (ts, name)
      /\ line = ts +:+ ":" +:+ name
      /\ contains ":" ts = false /\ contains ":" name = false)
  <-> occurrences ":" line = 1%nat.
Proof.
  pose proof (split_length ":" line) as Hlen.
  pose proof (split_fields ":" line) as Hfields.
  split.
  - intros (ts & name & Hsplit & _).
    destruct (split ":" line) as [|a [|b [|c l]]]; simpl in *; try done. lia.
  - intros Hone. rewrite Hone in Hlen.
    destruct (split ":" line) as [|ts [|name [|c l]]] eqn:E; simpl in Hlen; try lia.
    exists ts, name. split; [done|]. split; [by apply (split_join ":")|].
    apply Forall_cons in Hfields as [Hts Hrest]. by apply Forall_cons in Hrest as [Hname _].
Qed.

(** X2: the keys of the entries that parseCrashlogs returns are exactly the
    lines of the chunk whose first field passes the filter, in the order of
    the chunk: no line is invented, reordered or rewritten. *)
Theorem X2_parsed_keys_are_filtered_lines (rt : Runtime) (chunk : list string)
    (timestamp : PyVal) (parsed : list (string * string * string)) :
  parseCrashlogs rt chunk timestamp = Return parsed ->
  key_of <$> parsed = List.filter (fun line => flt timestamp (first_field line)) chunk.
Proof.
  revert parsed. induction chunk as [|line chunk IH]; simpl; intros parsed.
  - by intros [= <-].
  - unfold first_field.
    destruct (split ":" line) as [|ts [|name [|]]] eqn:E; simpl; try done.
    destruct (flt timestamp ts); [|by apply IH].
    destruct (ctime_micro rt ts) as [date|]; simpl; [|done].
    destruct (parseCrashlogs rt chunk timestamp) as [tl|]; simpl; [|done].
    intros [= <-]. cbn. f_equal; [|by apply IH].
    unfold key_of. simpl. symmetry. by apply (split_join ":").
Qed.

Lemma X2_parsed_keys_are_filtered_lines_witness :
  key_of <$> [("200", "ctime 200", "b"); ("200", "ctime 200", "d")]
  = List.filter (fun line => flt (PyStr "200") (first_field line))
      ["100:a"; "200:b"; "300:c"; "200:d"].
Proof.
  exact (X2_parsed_keys_are_filtered_lines test_runtime
           ["100:a"; "200:b"; "300:c"; "200:d"] (PyStr "200") _ eq_refl).
Defined.

(** X3: a filter value that is not a string but is true (the integer 200, a
    list) equals no timestamp: whenever the parse returns, it returns no
    entry at all. *)
Theorem X3_non_string_filter_selects_nothing (rt : Runtime) (chunk : list string)
    (timestamp : PyVal) (parsed : list (string * string * string)) :
  truthy timestamp = true ->
  (forall s, timestamp <> PyStr s) ->
  parseCrashlogs rt chunk timestamp = Return parsed ->
  parsed = [].
Proof.
  intros Ht Hns. revert parsed. induction chunk as [|line chunk IH]; simpl; intros parsed.
  - by intros [= <-].
  - destruct (unpack2 (split ":" line)) as [[ts name]|]; simpl; [|done].
    assert (Hflt : flt timestamp ts = false).
    { unfold flt. rewrite Ht. destruct timestamp; try done. by destruct (Hns s). }
    rewrite Hflt. apply IH.
Qed.

Lemma X3_non_string_filter_selects_nothing_witness :
  parseCrashlogs test_runtime ["100:a"; "200:b"] (PyInt 200) = Return []
  /\ forall parsed,
       parseCrashlogs test_runtime ["100:a"; "200:b"] (PyInt 200) = Return parsed ->
       parsed = [].
Proof.
  split; [reflexivity|]. intros parsed Hparse.
  apply (X3_non_string_filter_selects_nothing test_runtime ["100:a"; "200:b"] (PyInt 200)
           parsed).
  - reflexivity.
  - intros s H. discriminate H.
  - exact Hparse.
Defined.

(** X4: a filter value that is false (None, the empty string, 0, an empty
    list) filters nothing: the parse is the same as without a filter. *)
Theorem X4_falsy_filter_is_no_filter (rt : Runtime) (chunk : list string)
    (timestamp : PyVal) :
  truthy timestamp = false ->
  parseCrashlogs rt chunk timestamp = parseCrashlogs rt chunk PyNone.
Proof.
  intros Ht. induction chunk as [|line chunk IH]; simpl; [done|].
  destruct (unpack2 (split ":" line)) as [[ts name]|]; simpl; [|done].
  unfold flt. rewrite Ht. simpl. by rewrite IH.
Qed.

Lemma X4_falsy_filter_is_no_filter_witness :
  parseCrashlogs test_runtime ["100:a"; "200:b"] (PyStr "")
  = Return [("100", "ctime 100", "a"); ("200", "ctime 200", "b")].
Proof.
  rewrite (X4_falsy_filter_is_no_filter test_runtime ["100:a"; "200:b"] (PyStr "") eq_refl).
  reflexivity.
Defined.

(** X5: the lines are unpacked before they are filtered, so one line without
    exactly one colon makes the whole parse raise, whatever the filter, also
    when the filter would not have selected that line. *)
Theorem X5_malformed_line_fails_the_parse (rt : Runtime) (chunk : list string)
    (timestamp : PyVal) :
  Exists (fun line => occurrences ":" line <> 1%nat) chunk ->
  exists e, parseCrashlogs rt chunk timestamp = Raise e.
Proof.
  induction 1 as [line chunk Hbad|line chunk _ [e IH]]; simpl.
  - pose proof (split_length ":" line) as Hlen.
    destruct (split ":" line) as [|a [|b [|c l]]]; simpl in *; try by eexists.
    lia.
  - destruct (unpack2 (split ":" line)) as [[ts name]|]; simpl; [|by eexists].
    rewrite IH. destruct (flt timestamp ts); [|by eexists].
    destruct (ctime_micro rt ts); simpl; by eexists.
Qed.

Lemma X5_malformed_line_fails_the_parse_witness :
  exists e, parseCrashlogs test_runtime ["100:a"; "core.dump"] (PyStr "100") = Raise e.
Proof.
  apply (X5_malformed_line_fails_the_parse test_runtime ["100:a"; "core.dump"] (PyStr "100")).
  apply Exists_cons_tl, Exists_cons_hd. intros H. discriminate H.
Defined.

(** ** Counting and forwarding in the fan-in coordinator *)

Lemma donebacks_app effs1 effs2 :
  donebacks (effs1 ++ effs2) = (donebacks effs1 + donebacks effs2)%nat.
Proof. unfold donebacks. by rewrite List.filter_app, length_app. Qed.

Lemma errors_app effs1 effs2 : errors (effs1 ++ effs2) = (errors effs1 + errors effs2)%nat.
Proof. unfold errors. by rewrite List.filter_app, length_app. Qed.

Lemma fan_out_requests method crashlogs :
  method = "read" \/ method = "remove" ->
  length (issued (CrashlogViewOrRemoveAction.Future.fan_out method crashlogs))
  = length crashlogs
  /\ errors (CrashlogViewOrRemoveAction.Future.fan_out method crashlogs) = 0%nat
  /\ donebacks (CrashlogViewOrRemoveAction.Future.fan_out method crashlogs) = 0%nat.
Proof.
  unfold issued, errors, donebacks.
  intros [-> | ->]; induction crashlogs as [|[[ts date] name] tl (IH1 & IH2 & IH3)];
    try done; simpl in *; rewrite IH1; auto.
Qed.

(** X6: with the method read or remove, [onChunk] either fails in the parse,
    leaving the object as it was and calling nothing, or leaves the counter
    equal to the number of storage requests it has issued, and calls
    doneback itself exactly when that number is zero. *)
Theorem X6_counter_matches_requests (rt : Runtime)
    (self : CrashlogViewOrRemoveAction.Future.t) (chunk : list string) :
  CrashlogViewOrRemoveAction.method (CrashlogViewOrRemoveAction.Future.action self) = "read"
  \/ CrashlogViewOrRemoveAction.method (CrashlogViewOrRemoveAction.Future.action self)
     = "remove" ->
  let result := CrashlogViewOrRemoveAction.Future.onChunk rt self chunk in
  (exists e, result = (self, [uncaught e]))
  \/ (Z.of_nat (length (issued result.2))
      = CrashlogViewOrRemoveAction.Future.messagesLeft result.1
      /\ errors result.2 = 0%nat
      /\ donebacks result.2
         = if CrashlogViewOrRemoveAction.Future.messagesLeft result.1 =? 0
           then 1%nat else 0%nat).
Proof.
  intros Hmethod result. subst result.
  unfold CrashlogViewOrRemoveAction.Future.onChunk.
  destruct (parseCrashlogs rt chunk _) as [parsed|e]; [right|left; by eexists].
  destruct (fan_out_requests _ parsed Hmethod) as (Hissued & Herrors & Hdone).
  simpl. destruct parsed as [|entry parsed]; [done|].
  change (Nat.eqb (length (entry :: parsed)) 0) with false.
  rewrite app_nil_l, Hissued, Herrors, Hdone. done.
Qed.

Lemma X6_counter_matches_requests_witness :
  let self := CrashlogViewOrRemoveAction.Future.__init__
                {| CrashlogViewOrRemoveAction.name := PyStr "app";
                   CrashlogViewOrRemoveAction.timestamp := PyNone;
                   CrashlogViewOrRemoveAction.method := "remove" |} in
  let result := CrashlogViewOrRemoveAction.Future.onChunk test_runtime self
                  ["100:a"; "200:b"; "300:c"] in
  length (issued result.2) = 3%nat
  /\ CrashlogViewOrRemoveAction.Future.messagesLeft result.1 = 3
  /\ donebacks result.2 = 0%nat.
Proof.
  intros self result.
  destruct (X6_counter_matches_requests test_runtime self ["100:a"; "200:b"; "300:c"]
              (or_intror eq_refl)) as [[e He]|(Hissued & _ & Hdone)].
  - discriminate He.
  - split; [reflexivity|]. split; [reflexivity|]. exact Hdone.
Defined.

Ltac case_tests :=
  repeat match goal with
    | |- context [Z.ltb ?a ?b] => destruct (Z.ltb_spec a b)
    | |- context [Z.leb ?a ?b] => destruct (Z.leb_spec a b)
    | |- context [Z.eqb ?a ?b] => destruct (Z.eqb_spec a b)
    end.

(** X7: after the list chunk, the number of doneback calls is the number of
    completion events (the completion of the find future or of a secondary
    future, an upstream error) plus one for the counter, when it was positive
    and at least that many secondary results have arrived.  Without
    completion events, doneback is called once, by the result that brings
    the counter to zero, and never if fewer results arrive. *)
Theorem X7_doneback_count (rt : Runtime) (self : CrashlogViewOrRemoveAction.Future.t)
    (evs : list CrashlogViewOrRemoveAction.Future.Event) :
  Forall (fun ev => is_found ev = false) evs ->
  let left := CrashlogViewOrRemoveAction.Future.messagesLeft self in
  donebacks (CrashlogViewOrRemoveAction.Future.run rt self evs).2
  = (completions evs
     + if ((0 <? left) && (left <=? Z.of_nat (length (results evs))))%Z then 1 else 0)%nat.
Proof.
  intros H. revert self. induction H as [|ev evs Hev _ IH]; intros self; simpl.
  - unfold completions. simpl. case_tests; simpl in *; first [done | lia].
  - destruct (CrashlogViewOrRemoveAction.Future.deliver rt self ev) as [self1 effs1] eqn:Hd.
    specialize (IH self1).
    destruct (CrashlogViewOrRemoveAction.Future.run rt self1 evs) as [self2 effs2].
    simpl in *. rewrite donebacks_app, IH. clear IH.
    destruct ev; simpl in *; try done; injection Hd as <- <-; simpl;
      unfold completions; simpl; case_tests; simpl in *; first [done | lia].
Qed.

Lemma X7_doneback_count_witness :
  let start := {| CrashlogViewOrRemoveAction.Future.action :=
                    {| CrashlogViewOrRemoveAction.name := PyStr "app";
                       CrashlogViewOrRemoveAction.timestamp := PyNone;
                       CrashlogViewOrRemoveAction.method := "read" |};
                  CrashlogViewOrRemoveAction.Future.messagesLeft := 2 |} in
  donebacks (CrashlogViewOrRemoveAction.Future.run test_runtime start
               [ CrashlogViewOrRemoveAction.Future.answered 1 (PyStr "trace") ]).2 = 0%nat
  /\ donebacks (CrashlogViewOrRemoveAction.Future.run test_runtime start
                  [ CrashlogViewOrRemoveAction.Future.answered 1 (PyStr "trace");
                    CrashlogViewOrRemoveAction.Future.failed 0 (ServiceError "gone") ]).2
     = 1%nat.
Proof.
  intros start. split.
  - rewrite (X7_doneback_count test_runtime start
               [ CrashlogViewOrRemoveAction.Future.answered 1 (PyStr "trace") ]);
      [reflexivity|by repeat constructor].
  - rewrite (X7_doneback_count test_runtime start
               [ CrashlogViewOrRemoveAction.Future.answered 1 (PyStr "trace");
                 CrashlogViewOrRemoveAction.Future.failed 0 (ServiceError "gone") ]);
      [reflexivity|by repeat constructor].
Defined.

Lemma callbacks_app effs1 effs2 : callbacks (effs1 ++ effs2) = callbacks effs1 ++ callbacks effs2.
Proof. apply flat_map_app. Qed.

Lemma errorbacks_app effs1 effs2 :
  errorbacks (effs1 ++ effs2) = errorbacks effs1 ++ errorbacks effs2.
Proof. apply flat_map_app. Qed.

(** X8: after the list chunk the coordinator hands every chunk of a secondary
    future to callback and every error, of a secondary future or of the find
    future, to errorback: each once, in the order of arrival, none dropped
    and none added, whatever the counter says. *)
Theorem X8_results_forwarded_in_order (rt : Runtime)
    (self : CrashlogViewOrRemoveAction.Future.t)
    (evs : list CrashlogViewOrRemoveAction.Future.Event) :
  Forall (fun ev => is_found ev = false) evs ->
  callbacks (CrashlogViewOrRemoveAction.Future.run rt self evs).2 = answers evs
  /\ errorbacks (CrashlogViewOrRemoveAction.Future.run rt self evs).2 = failures evs.
Proof.
  intros H. revert self. induction H as [|ev evs Hev _ IH]; intros self; simpl; [done|].
  destruct (CrashlogViewOrRemoveAction.Future.deliver rt self ev) as [self1 effs1] eqn:Hd.
  destruct (IH self1) as [IH1 IH2].
  destruct (CrashlogViewOrRemoveAction.Future.run rt self1 evs) as [self2 effs2].
  simpl in *. rewrite callbacks_app, errorbacks_app, IH1, IH2.
  destruct ev; simpl in *; try done; injection Hd as <- <-; simpl;
    case_tests; done.
Qed.

Lemma X8_results_forwarded_in_order_witness :
  let start := {| CrashlogViewOrRemoveAction.Future.action :=
                    {| CrashlogViewOrRemoveAction.name := PyStr "app";
                       CrashlogViewOrRemoveAction.timestamp := PyNone;
                       CrashlogViewOrRemoveAction.method := "read" |};
                  CrashlogViewOrRemoveAction.Future.messagesLeft := 1 |} in
  let evs := [ CrashlogViewOrRemoveAction.Future.answered 0 (PyStr "first");
               CrashlogViewOrRemoveAction.Future.failed 0 (ServiceError "late");
               CrashlogViewOrRemoveAction.Future.answered 0 (PyStr "second") ] in
  callbacks (CrashlogViewOrRemoveAction.Future.run test_runtime start evs).2
  = [PyStr "first"; PyStr "second"]
  /\ errorbacks (CrashlogViewOrRemoveAction.Future.run test_runtime start evs).2
     = [ServiceError "late"].
Proof.
  intros start evs.
  apply (X8_results_forwarded_in_order test_runtime start evs). by repeat constructor.
Defined.


(** ** Status checks *)

(** X9: a status chunk that is not a mapping (None, a number, a string, a
    list) is still reported to callback as 'stopped or missing'; the
    TypeError of the lookup leaves [onChunk] afterwards, and errorback is not
    called. *)
Theorem X9_check_snapshot_not_a_mapping (self : AppCheckAction.Future.t) (chunk : PyVal)
    (k : Key) :
  as_key (AppCheckAction.name (AppCheckAction.Future.action self)) = Some k ->
  (forall d, chunk <> PyDict d) ->
  exists msg,
    AppCheckAction.Future.onChunk self chunk
    = [callback (PyDict [(k, PyStr "stopped or missing")]); uncaught (TypeError msg)].
Proof.
  intros Hk Hchunk.
  unfold AppCheckAction.Future.onChunk, AppCheckAction.Future.lookup_state, dict1.
  rewrite Hk. destruct chunk as [| | | |d]; simpl; try by eexists.
  by destruct (Hchunk d).
Qed.

Lemma X9_check_snapshot_not_a_mapping_witness :
  exists msg,
    AppCheckAction.Future.onChunk
      (AppCheckAction.Future.__init__ {| AppCheckAction.name := PyStr "web" |}) PyNone
    = [callback (PyDict [(KStr "web", PyStr "stopped or missing")]); uncaught (TypeError msg)].
Proof.
  apply (X9_check_snapshot_not_a_mapping
           (AppCheckAction.Future.__init__ {| AppCheckAction.name := PyStr "web" |})
           PyNone (KStr "web") eq_refl).
  intros d H. discriminate H.
Defined.

(** X10: when the snapshot holds a mapping for the application, the check
    reports the value under its 'state' key as it is, and 'stopped or
    missing' when that mapping has no 'state' key; in both cases callback is
    the only thing called. *)
Theorem X10_check_reports_state_of_entry (self : AppCheckAction.Future.t)
    (k : Key) (d apps app : list (Key * PyVal)) :
  as_key (AppCheckAction.name (AppCheckAction.Future.action self)) = Some k ->
  dict_get (KStr "apps") d = Some (PyDict apps) ->
  dict_get k apps = Some (PyDict app) ->
  AppCheckAction.Future.onChunk self (PyDict d)
  = [callback (PyDict [(k, match dict_get (KStr "state") app with
                           | Some state => state
                           | None => PyStr "stopped or missing"
                           end)])].
Proof.
  intros Hk Happs Happ.
  unfold AppCheckAction.Future.onChunk, AppCheckAction.Future.lookup_state, dict1.
  rewrite Hk. simpl. rewrite Happs. simpl. rewrite Hk, Happ. simpl.
  by destruct (dict_get (KStr "state") app).
Qed.

Lemma X10_check_reports_state_of_entry_witness :
  AppCheckAction.Future.onChunk
    (AppCheckAction.Future.__init__ {| AppCheckAction.name := PyStr "web" |})
    (PyDict [(KStr "apps",
              PyDict [(KStr "web", PyDict [(KStr "state", PyStr "running")])])])
  = [callback (PyDict [(KStr "web", PyStr "running")])].
Proof.
  exact (X10_check_reports_state_of_entry
           (AppCheckAction.Future.__init__ {| AppCheckAction.name := PyStr "web" |})
           (KStr "web")
           [(KStr "apps", PyDict [(KStr "web", PyDict [(KStr "state", PyStr "running")])])]
           [(KStr "web", PyDict [(KStr "state", PyStr "running")])]
           [(KStr "state", PyStr "running")]
           eq_refl eq_refl eq_refl).
Defined.

(** ** Restarts *)

Lemma except_only_ToolsError (rt : Runtime) (self : AppRestartAction.t) (err : exn) :
  only_ToolsError (AppRestartAction.except rt self err).
Proof. destruct err; constructor. Qed.

Lemma doAction_only_ToolsError (rt : Runtime) (self : AppRestartAction.t) :
  only_ToolsError (AppRestartAction.doAction rt self).
Proof.
  unfold AppRestartAction.doAction. simpl.
  constructor. intros sent1.
  destruct (_ ≫= _) as [[profile pauseFuture]|err]; [|apply except_only_ToolsError].
  constructor. intros sent2.
  destruct (_ ≫= _) as [[appStopStatus startFuture]|err]; [|apply except_only_ToolsError].
  constructor. intros [appStartStatus|err]; [|apply except_only_ToolsError].
  constructor. intros [x|err]; [constructor|apply except_only_ToolsError].
Qed.

Lemma feed_only_ToolsError (g : Generator) (responses : list (Result PyVal)) :
  only_ToolsError g -> only_ToolsError (feed g responses).2.
Proof.
  intros H. revert responses.
  induction H as [y resume _ IH| |msg]; intros responses; simpl; try by constructor.
  destruct responses as [|r rest]; simpl.
  - constructor. intros sent. specialize (IH sent []). by destruct (resume sent).
  - specialize (IH r rest). by destruct (feed (resume r) rest).
Qed.

(** X11: whatever the node answers, and whichever exception of the classes
    below Exception (those of [exn]: KeyError, ValueError, TypeError, the
    errors of the services, ...) is raised in the try block of the generator
    of a restart or thrown in at one of its yields, the exception that comes
    out is a ToolsError.  GeneratorExit, KeyboardInterrupt and SystemExit,
    which [except Exception] does not catch, are no values of [exn]. *)
Theorem X11_restart_raises_only_ToolsError (rt : Runtime) (self : AppRestartAction.t)
    (responses : list (Result PyVal)) (e : exn) :
  (feed (AppRestartAction.doAction rt self) responses).2 = Failed e ->
  exists msg, e = ToolsError msg.
Proof.
  intros Hfailed.
  pose proof (feed_only_ToolsError _ responses (doAction_only_ToolsError rt self)) as H.
  rewrite Hfailed in H. inversion H. by eexists.
Qed.

Lemma X11_restart_raises_only_ToolsError_witness :
  let self := {| AppRestartAction.config := {[ "name" := PyStr "web" ]};
                 AppRestartAction.name := PyStr "web";
                 AppRestartAction.profile := PyStr "fast" |} in
  let responses := [Return PyNone; Raise (ServiceError "connection lost")] in
  exists e,
    (feed (AppRestartAction.doAction test_runtime self) responses).2 = Failed e
    /\ exists msg, e = ToolsError msg.
Proof.
  intros self responses. eexists. split; [reflexivity|].
  apply (X11_restart_raises_only_ToolsError test_runtime self responses). reflexivity.
Defined.

Lemma start_config (host port name profile : PyVal) :
  let appStartConfig : Config :=
    {[ "host" := host; "port" := port; "name" := name; "profile" := profile ]} in
  get appStartConfig "name" = name /\ get appStartConfig "profile" = profile.
Proof. unfold get. by simplify_map_eq. Qed.

(** What the generator of a restart does once the profile is known: it yields
    the pause, and then goes on as [resume] says. *)
Lemma restart_until_pause (rt : Runtime) (config : Config) (self : AppRestartAction.t)
    (info profile : PyVal) (rest : list (Result PyVal)) :
  AppRestartAction.__init__ config = Return self ->
  AppRestartAction.resolve_profile self info = Return profile ->
  exists resume,
    feed (AppRestartAction.doAction rt self) (Return info :: rest)
    = (let '(ys, g) := feed (Yield (yield_future (node_pause_app [get config "name"])) resume)
                            rest in
       (yield_future node_info :: ys, g))
    /\ forall appStopStatus,
        resume (Return appStopStatus)
        = match (host ← subscript config "host";
                 port ← subscript config "port";
                 action ← AppStartAction.__init__
                            {[ "host" := host; "port" := port;
                               "name" := get config "name"; "profile" := profile ]};
                 AppStartAction.execute action) with
          | Raise err => AppRestartAction.except rt self err
          | Return startFuture =>
              Yield (yield_future startFuture) (fun sent =>
                match sent with
                | Raise err => AppRestartAction.except rt self err
                | Return appStartStatus =>
                    Yield (yield_values [appStopStatus; appStartStatus]) (fun sent =>
                      match sent with
                      | Raise err => AppRestartAction.except rt self err
                      | Return _ => Exhausted
                      end)
                end)
          end.
Proof.
  unfold AppRestartAction.__init__.
  destruct (truthy (get config "name")) eqn:Hname; simpl; [|done].
  intros [= <-] Hprofile.
  unfold AppRestartAction.doAction. simpl. rewrite Hprofile. simpl.
  unfold AppPauseAction.__init__. rewrite Hname. simpl.
  eexists. split; [reflexivity|]. intros appStopStatus. simpl.
  destruct (subscript config "host") as [host|]; simpl; [|done].
  destruct (subscript config "port") as [port|]; simpl; [|done].
  destruct (AppStartAction.__init__ _) as [action|]; simpl; [|done].
  by destruct (AppStartAction.execute action).
Qed.

(** X12: a restart whose profile is known (given explicitly, or found in the
    status snapshot) and whose configuration holds host and port issues, in
    this order, the status request, the pause of the application and its
    start with that profile, then yields the two results and ends. *)
Theorem X12_restart_sequence (rt : Runtime) (config : Config) (self : AppRestartAction.t)
    (info profile host port stopped started last : PyVal) (k : Key) :
  AppRestartAction.__init__ config = Return self ->
  AppRestartAction.resolve_profile self info = Return profile ->
  truthy profile = true ->
  config !! "host" = Some host -> config !! "port" = Some port ->
  as_key (get config "name") = Some k ->
  feed (AppRestartAction.doAction rt self)
       [Return info; Return stopped; Return started; Return last]
  = ([ yield_future node_info;
       yield_future (node_pause_app [get config "name"]);
       yield_future (node_start_app (PyDict [(k, profile)]));
       yield_values [stopped; started] ],
     Exhausted).
Proof.
  intros Hinit Hprofile Htruthy Hhost Hport Hkey.
  destruct (restart_until_pause rt config self info profile
              [Return stopped; Return started; Return last] Hinit Hprofile)
    as (resume & -> & Hresume).
  simpl. rewrite Hresume. unfold subscript. rewrite Hhost, Hport. simpl.
  unfold AppStartAction.__init__.
  destruct (start_config host port (get config "name") profile) as [-> ->].
  unfold AppRestartAction.__init__ in Hinit.
  destruct (truthy (get config "name")); [|done].
  rewrite Htruthy. simpl. unfold AppStartAction.execute, dict1. simpl.
  by rewrite Hkey.
Qed.

Lemma X12_restart_sequence_witness :
  let config : Config :=
    {[ "name" := PyStr "web"; "host" := PyStr "localhost"; "port" := PyInt 10053 ]} in
  let self := {| AppRestartAction.config := config;
                 AppRestartAction.name := PyStr "web";
                 AppRestartAction.profile := PyNone |} in
  let info := PyDict [(KStr "apps",
                       PyDict [(KStr "web", PyDict [(KStr "profile", PyStr "fast")])])] in
  feed (AppRestartAction.doAction test_runtime self)
       [Return info; Return (PyStr "paused"); Return (PyStr "started"); Return PyNone]
  = ([ yield_future node_info;
       yield_future (node_pause_app [PyStr "web"]);
       yield_future (node_start_app (PyDict [(KStr "web", PyStr "fast")]));
       yield_values [PyStr "paused"; PyStr "started"] ],
     Exhausted).
Proof.
  intros config self info.
  exact (X12_restart_sequence test_runtime config self info (PyStr "fast")
           (PyStr "localhost") (PyInt 10053) (PyStr "paused") (PyStr "started") PyNone
           (KStr "web") eq_refl eq_refl eq_refl eq_refl eq_refl eq_refl).
Defined.

(** X13: with an explicit profile the status snapshot is not looked at: the
    restart pauses and starts the application with that profile whatever the
    status request returned, also for an application that is not running. *)
Theorem X13_explicit_profile_ignores_snapshot (rt : Runtime) (config : Config)
    (self : AppRestartAction.t) (info host port stopped started last : PyVal) (k : Key) :
  AppRestartAction.__init__ config = Return self ->
  truthy (get config "profile") = true ->
  config !! "host" = Some host -> config !! "port" = Some port ->
  as_key (get config "name") = Some k ->
  calls_of (feed (AppRestartAction.doAction rt self)
                 [Return info; Return stopped; Return started; Return last]).1
  = [ node_info; node_pause_app [get config "name"];
      node_start_app (PyDict [(k, get config "profile")]) ].
Proof.
  intros Hinit Hprofile Hhost Hport Hkey.
  assert (Hresolve : AppRestartAction.resolve_profile self info
                     = Return (get config "profile")).
  { unfold AppRestartAction.__init__ in Hinit.
    destruct (truthy (get config "name")); [|done]. injection Hinit as <-.
    unfold AppRestartAction.resolve_profile. simpl. by rewrite Hprofile. }
  destruct (restart_until_pause rt config self info (get config "profile")
              [Return stopped; Return started; Return last] Hinit Hresolve)
    as (resume & -> & Hresume).
  simpl. rewrite Hresume. unfold subscript. rewrite Hhost, Hport. simpl.
  unfold AppStartAction.__init__.
  destruct (start_config host port (get config "name") (get config "profile")) as [-> ->].
  unfold AppRestartAction.__init__ in Hinit.
  destruct (truthy (get config "name")); [|done].
  rewrite Hprofile. simpl. unfold AppStartAction.execute, dict1. simpl.
  by rewrite Hkey.
Qed.

Lemma X13_explicit_profile_ignores_snapshot_witness :
  let config : Config :=
    {[ "name" := PyStr "web"; "profile" := PyStr "fast";
       "host" := PyStr "localhost"; "port" := PyInt 10053 ]} in
  let self := {| AppRestartAction.config := config;
                 AppRestartAction.name := PyStr "web";
                 AppRestartAction.profile := PyStr "fast" |} in
  calls_of (feed (AppRestartAction.doAction test_runtime self)
                 [Return (PyDict []); Return PyNone; Return PyNone; Return PyNone]).1
  = [ node_info; node_pause_app [PyStr "web"];
      node_start_app (PyDict [(KStr "web", PyStr "fast")]) ].
Proof.
  intros config self.
  exact (X13_explicit_profile_ignores_snapshot test_runtime config self (PyDict [])
           (PyStr "localhost") (PyInt 10053) PyNone PyNone PyNone (KStr "web")
           eq_refl eq_refl eq_refl eq_refl eq_refl).
Defined.

(** X14: host and port are read from the configuration only after the pause
    was requested and answered.  When one of them is missing, the application
    has been paused, the start is never requested, and the error that comes
    out is the ToolsError 'Application "<name>" is not running and profile
    not specified'. *)
Theorem X14_restart_without_host_or_port (rt : Runtime) (config : Config)
    (self : AppRestartAction.t) (info profile stopped : PyVal)
    (rest : list (Result PyVal)) :
  AppRestartAction.__init__ config = Return self ->
  AppRestartAction.resolve_profile self info = Return profile ->
  config !! "host" = None \/ config !! "port" = None ->
  feed (AppRestartAction.doAction rt self) (Return info :: Return stopped :: rest)
  = ([yield_future node_info; yield_future (node_pause_app [get config "name"])],
     Failed (ToolsError ("Application " +:+ dq +:+ py_str rt (get config "name") +:+ dq
                         +:+ " is not running and profile not specified"))).
Proof.
  intros Hinit Hprofile Hmissing.
  destruct (restart_until_pause rt config self info profile (Return stopped :: rest)
              Hinit Hprofile) as (resume & -> & Hresume).
  simpl. rewrite Hresume. unfold subscript.
  unfold AppRestartAction.__init__ in Hinit.
  destruct (truthy (get config "name")); [|done]. injection Hinit as <-.
  destruct Hmissing as [-> | Hport]; simpl; [done|].
  destruct (config !! "host"); simpl; by rewrite ?Hport.
Qed.

Lemma X14_restart_without_host_or_port_witness :
  let config : Config := {[ "name" := PyStr "web"; "profile" := PyStr "fast" ]} in
  let self := {| AppRestartAction.config := config;
                 AppRestartAction.name := PyStr "web";
                 AppRestartAction.profile := PyStr "fast" |} in
  feed (AppRestartAction.doAction test_runtime self) [Return PyNone; Return PyNone]
  = ([yield_future node_info; yield_future (node_pause_app [PyStr "web"])],
     Failed (ToolsError ("Application " +:+ dq +:+ "web" +:+ dq
                         +:+ " is not running and profile not specified"))).
Proof.
  intros config self.
  exact (X14_restart_without_host_or_port test_runtime config self PyNone (PyStr "fast")
           PyNone [] eq_refl eq_refl (or_introl eq_refl)).
Defined.

(** X15: when no profile was given and the snapshot holds an empty profile
    for the application, the restart pauses the application and then fails in
    the constructor of the start action: the start is never requested and the
    error that comes out is the ToolsError 'Unknown error - ...' around the
    ValueError 'Please specify profile name'. *)
Theorem X15_restart_with_empty_profile (rt : Runtime) (config : Config)
    (self : AppRestartAction.t) (info profile host port stopped : PyVal)
    (rest : list (Result PyVal)) :
  AppRestartAction.__init__ config = Return self ->
  AppRestartAction.resolve_profile self info = Return profile ->
  truthy profile = false ->
  config !! "host" = Some host -> config !! "port" = Some port ->
  feed (AppRestartAction.doAction rt self) (Return info :: Return stopped :: rest)
  = ([yield_future node_info; yield_future (node_pause_app [get config "name"])],
     Failed (ToolsError ("Unknown error - "
                         +:+ exn_str rt (ValueError "Please specify profile name")))).
Proof.
  intros Hinit Hprofile Hfalsy Hhost Hport.
  destruct (restart_until_pause rt config self info profile (Return stopped :: rest)
              Hinit Hprofile) as (resume & -> & Hresume).
  simpl. rewrite Hresume. unfold subscript. rewrite Hhost, Hport. simpl.
  unfold AppStartAction.__init__.
  destruct (start_config host port (get config "name") profile) as [-> ->].
  unfold AppRestartAction.__init__ in Hinit.
  destruct (truthy (get config "name")); [|done].
  by rewrite Hfalsy.
Qed.

Lemma X15_restart_with_empty_profile_witness :
  let config : Config :=
    {[ "name" := PyStr "web"; "host" := PyStr "localhost"; "port" := PyInt 10053 ]} in
  let self := {| AppRestartAction.config := config;
                 AppRestartAction.name := PyStr "web";
                 AppRestartAction.profile := PyNone |} in
  let info := PyDict [(KStr "apps",
                       PyDict [(KStr "web", PyDict [(KStr "profile", PyStr "")])])] in
  feed (AppRestartAction.doAction test_runtime self) [Return info; Return PyNone]
  = ([yield_future node_info; yield_future (node_pause_app [PyStr "web"])],
     Failed (ToolsError ("Unknown error - " +:+ "Please specify profile name"))).
Proof.
  intros config self info.
  exact (X15_restart_with_empty_profile test_runtime config self info (PyStr "")
           (PyStr "localhost") (PyInt 10053) PyNone [] eq_refl eq_refl eq_refl
           eq_refl eq_refl).
Defined.

Lemma feed_except (rt : Runtime) (self : AppRestartAction.t) (err : exn)
    (responses : list (Result PyVal)) :
  feed (AppRestartAction.except rt self err) responses
  = ([], AppRestartAction.except rt self err).
Proof. by destruct err. Qed.

(** X16: however the generator of a restart is resumed, the requests it
    issues are a prefix of: the status request, the pause of the application,
    one start request.  It never starts before it has paused, never pauses
    before it has asked for the status, and never issues a fourth request. *)
Theorem X16_restart_request_order (rt : Runtime) (config : Config)
    (self : AppRestartAction.t) (responses : list (Result PyVal)) :
  AppRestartAction.__init__ config = Return self ->
  exists apps,
    calls_of (feed (AppRestartAction.doAction rt self) responses).1
    `prefix_of` [node_info; node_pause_app [get config "name"]; node_start_app apps].
Proof.
  unfold AppRestartAction.__init__.
  destruct (truthy (get config "name")) eqn:Hname; simpl; [|done].
  intros [= <-]. unfold AppRestartAction.doAction. simpl.
  destruct responses as [|[info|err] rest]; simpl.
  { exists PyNone. by eexists. }
  2: { rewrite feed_except. exists PyNone. by eexists. }
  destruct (AppRestartAction.resolve_profile _ info) as [profile|err]; simpl.
  2: { rewrite feed_except. exists PyNone. by eexists. }
  unfold AppPauseAction.__init__. rewrite Hname. simpl.
  destruct rest as [|sent rest]; simpl.
  { exists PyNone. by eexists. }
  destruct (_ ≫= _) as [[appStopStatus startFuture]|err] eqn:Hstart.
  2: { rewrite feed_except. exists PyNone. by eexists. }
  assert (Hcall : exists apps, startFuture = node_start_app apps).
  { destruct sent as [x|]; simpl in Hstart; [|done].
    destruct (subscript config "host"); simpl in Hstart; [|done].
    destruct (subscript config "port"); simpl in Hstart; [|done].
    destruct (AppStartAction.__init__ _) as [action|]; simpl in Hstart; [|done].
    unfold AppStartAction.execute in Hstart.
    destruct (dict1 _ _) as [apps|]; simpl in Hstart; [|done].
    injection Hstart as _ <-. by eexists. }
  destruct Hcall as [apps ->]. exists apps.
  destruct rest as [|[appStartStatus|err] rest]; simpl; [done| |].
  - destruct rest as [|[x|err] rest]; simpl; [done|done|].
    by rewrite feed_except.
  - by rewrite feed_except.
Qed.

Lemma X16_restart_request_order_witness :
  let config : Config :=
    {[ "name" := PyStr "web"; "profile" := PyStr "fast";
       "host" := PyStr "localhost"; "port" := PyInt 10053 ]} in
  let self := {| AppRestartAction.config := config;
                 AppRestartAction.name := PyStr "web";
                 AppRestartAction.profile := PyStr "fast" |} in
  exists apps,
    calls_of (feed (AppRestartAction.doAction test_runtime self)
                   [Return PyNone; Raise (ServiceError "busy"); Return PyNone]).1
    `prefix_of` [node_info; node_pause_app [PyStr "web"]; node_start_app apps].
Proof.
  intros config self.
  exact (X16_restart_request_order test_runtime config self
           [Return PyNone; Raise (ServiceError "busy"); Return PyNone] eq_refl).
Defined.

(** ** Encoding and uploads *)

(** X17: when reading the file, decoding its JSON or packing the document
    raises an IOError or a ValueError, the exception that leaves [encodeJson]
    is a CocaineError; and whatever leaves [encodeJson] is a CocaineError or
    an exception of those three steps that is neither an IOError nor a
    ValueError. *)
Theorem X17_encodeJson_translates (rt : Runtime) (filename : PyVal) :
  let steps := (content ← read_file rt filename;
                data ← json_loads rt content;
                msgpack_packb rt data) in
  (forall e, steps = Raise e ->
             (exists m, e = IOError m) \/ (exists m, e = ValueError m) ->
             exists msg, StorageAction.encodeJson rt filename = Raise (CocaineError msg))
  /\ (forall e, StorageAction.encodeJson rt filename = Raise e ->
                (exists msg, e = CocaineError msg)
                \/ (steps = Raise e
                    /\ (forall m, e <> IOError m) /\ (forall m, e <> ValueError m))).
Proof.
  intros steps. unfold StorageAction.encodeJson, try_except. fold steps.
  destruct steps as [blob|e0]; split.
  - done.
  - done.
  - intros e [= <-] [[m ->]|[m ->]]; by eexists.
  - intros e.
    destruct e0; intros [= <-];
      first [left; by eexists
            |right; split; [done|]; split; intros m H; discriminate H].
Qed.

Lemma X17_encodeJson_translates_witness :
  (exists msg,
      StorageAction.encodeJson test_runtime (PyStr "missing.json") = Raise (CocaineError msg))
  /\ (exists msg,
         StorageAction.encodeJson test_runtime (PyStr "broken.json")
         = Raise (CocaineError msg)).
Proof.
  split.
  - apply (proj1 (X17_encodeJson_translates test_runtime (PyStr "missing.json"))
             (IOError "No such file or directory") eq_refl).
    left. by eexists.
  - apply (proj1 (X17_encodeJson_translates test_runtime (PyStr "broken.json"))
             (ValueError "No JSON object could be decoded") eq_refl).
    right. by eexists.
Defined.

(** X18: [encodeJson] returns exactly when the file can be read, its content
    decodes as JSON and the document packs; what it returns is the packed
    document. *)
Theorem X18_encodeJson_returns (rt : Runtime) (filename : PyVal) (blob : string) :
  StorageAction.encodeJson rt filename = Return blob
  <-> exists content data,
        read_file rt filename = Return content
        /\ json_loads rt content = Return data
        /\ msgpack_packb rt data = Return blob.
Proof.
  unfold StorageAction.encodeJson, try_except. split.
  - destruct (read_file rt filename) as [content|[]]; simpl; try done.
    destruct (json_loads rt content) as [data|[]] eqn:Hjson; simpl; try done.
    destruct (msgpack_packb rt data) as [packed|[]] eqn:Hpack; simpl; try done.
    intros [= <-]. by exists content, data.
  - intros (content & data & -> & Hjson & Hpack). simpl. rewrite Hjson. simpl.
    by rewrite Hpack.
Qed.

(** X19: [encodePackage] returns only for a file that [is_tarfile] accepts
    and that can be read, and then returns the packed content of the file;
    it lets no IOError out. *)
Theorem X19_encodePackage_outcomes (rt : Runtime) (self : AppUploadAction.t) :
  (forall blob,
      AppUploadAction.encodePackage rt self = Return blob ->
      is_tarfile rt (AppUploadAction.package self) = Return true
      /\ exists archive,
          read_file rt (AppUploadAction.package self) = Return archive
          /\ msgpack_packb rt (PyStr archive) = Return blob)
  /\ forall e, AppUploadAction.encodePackage rt self = Raise e -> forall msg, e <> IOError msg.
Proof.
  unfold AppUploadAction.encodePackage, try_except. split.
  - intros blob.
    destruct (is_tarfile rt _) as [[]|[]]; simpl; try done.
    destruct (read_file rt _) as [archive|[]]; simpl; try done.
    destruct (msgpack_packb rt _) as [packed|[]] eqn:Hpack; simpl; try done.
    intros [= <-]. split; [done|]. by exists archive.
  - intros e. destruct (_ ≫= _) as [blob|[]]; intros [= <-] m H; discriminate H.
Qed.

(** X20: the upload of an application issues both of its writes or none:
    either nothing is written, or the manifest is written under 'manifests'
    and then the package under 'apps', both under the name of the application
    and with the tag 'app', and both encodings succeeded. *)
Theorem X20_upload_writes_both_or_none (rt : Runtime) (self : AppUploadAction.t) :
  written (AppUploadAction.execute rt self) = []
  \/ exists manifest package,
      StorageAction.encodeJson rt (AppUploadAction.manifest self) = Return manifest
      /\ AppUploadAction.encodePackage rt self = Return package
      /\ AppUploadAction.execute rt self
         = Return [ storage_write "manifests" (AppUploadAction.name self) manifest
                      [PyStr "app"];
                    storage_write "apps" (AppUploadAction.name self) package
                      [PyStr "app"] ].
Proof.
  unfold AppUploadAction.execute.
  destruct (StorageAction.encodeJson rt _) as [manifest|]; simpl; [|by left].
  destruct (AppUploadAction.encodePackage rt self) as [package|]; simpl; [|by left].
  right. by exists manifest, package.
Qed.

(** X21: when the configuration of a runlist upload holds a manifest path,
    the raw runlist it may also hold plays no part: building the action and
    executing it gives what it gives without the 'runlist-raw' entry, the
    file encoded and written or the error of the encoding. *)
Theorem X21_manifest_precedes_raw_runlist (rt : Runtime) (config : Config) :
  truthy (get config "manifest") = true ->
  (self ← RunlistUploadAction.__init__ config; RunlistUploadAction.execute rt self)
  = (self ← RunlistUploadAction.__init__ (delete "runlist-raw" config);
     RunlistUploadAction.execute rt self).
Proof.
  intros Hmanifest.
  unfold RunlistUploadAction.__init__, SpecificRunlistAction.__init__, get in *.
  rewrite (lookup_delete_ne config "runlist-raw" "name") by done.
  rewrite ?(lookup_delete_ne config "runlist-raw" "manifest") by done.
  rewrite lookup_delete_eq.
  destruct (truthy (default PyNone (config !! "name"))); simpl; [|done].
  rewrite Hmanifest. simpl. unfold RunlistUploadAction.execute. simpl.
  by rewrite Hmanifest.
Qed.

Lemma X21_manifest_precedes_raw_runlist_witness :
  let config : Config :=
    {[ "name" := PyStr "default"; "manifest" := PyStr "manifest.json";
       "runlist-raw" := PyDict [(KStr "web", PyStr "fast")] ]} in
  (self ← RunlistUploadAction.__init__ config;
   RunlistUploadAction.execute test_runtime self)
  = Return (storage_write "runlists" (PyStr "default") "map:" [PyStr "runlist"]).
Proof.
  intros config.
  rewrite (X21_manifest_precedes_raw_runlist test_runtime config eq_refl).
  reflexivity.
Defined.

(** ** The runlist merge *)

Lemma Key_eqb_eq (a b : Key) : Key_eqb a b = true <-> a = b.
Proof.
  destruct a, b; simpl; try (split; [done|intros H; discriminate H]); try done.
  - rewrite Z.eqb_eq. split; [by intros ->|by intros [= ->]].
  - rewrite String.eqb_eq. split; [by intros ->|by intros [= ->]].
Qed.

Lemma dict_get_set_ne (k k' : Key) (v : PyVal) (d : list (Key * PyVal)) :
  k' <> k -> dict_get k' (dict_set k v d) = dict_get k' d.
Proof.
  intros Hne. induction d as [|[k0 v0] d IH]; simpl.
  - destruct (Key_eqb k' k) eqn:E; [|done]. by apply Key_eqb_eq in E.
  - destruct (Key_eqb k k0) eqn:E; simpl.
    + apply Key_eqb_eq in E as <-.
      destruct (Key_eqb k' k) eqn:E'; [|done]. by apply Key_eqb_eq in E'.
    + by rewrite IH.
Qed.

Lemma dict_set_length (k : Key) (v : PyVal) (d : list (Key * PyVal)) :
  (length d <= length (dict_set k v d) <= S (length d))%nat.
Proof.
  induction d as [|[k0 v0] d IH]; simpl; [lia|].
  destruct (Key_eqb k k0); simpl; lia.
Qed.

Lemma dict_set_same (k : Key) (v : PyVal) (d : list (Key * PyVal)) :
  dict_get k d = Some v -> dict_set k v d = d.
Proof.
  induction d as [|[k0 v0] d IH]; simpl; [done|].
  destruct (Key_eqb k k0) eqn:E.
  - apply Key_eqb_eq in E as <-. by intros [= ->].
  - intros H. by rewrite IH.
Qed.

(** X22: the merge step sets the entry of the application to the profile and
    keeps every other entry of the runlist it decoded; the runlist grows by
    at most one entry. *)
Theorem X22_merge_keeps_other_entries (rt : Runtime)
    (self : AddApplicationToRunlistAction.t) (packed : PyVal) (d : list (Key * PyVal))
    (k : Key) :
  msgpack_loads rt packed = Return (PyDict d) ->
  as_key (AddApplicationToRunlistAction.app self) = Some k ->
  exists merged,
    AddApplicationToRunlistAction.parseRunlist rt self (Return packed)
    = Return (Immediate (PyDict merged))
    /\ dict_get k merged = Some (AddApplicationToRunlistAction.profile self)
    /\ (forall k', k' <> k -> dict_get k' merged = dict_get k' d)
    /\ (length d <= length merged <= S (length d))%nat.
Proof.
  intros Hloads Hkey. unfold AddApplicationToRunlistAction.parseRunlist. simpl.
  rewrite Hloads. simpl. rewrite Hkey. simpl. eexists. split; [done|].
  split; [apply dict_get_set|]. split; [|apply dict_set_length].
  intros k' Hne. by apply dict_get_set_ne.
Qed.

Lemma X22_merge_keeps_other_entries_witness :
  exists merged,
    AddApplicationToRunlistAction.parseRunlist test_runtime
      {| AddApplicationToRunlistAction.name := PyStr "default";
         AddApplicationToRunlistAction.app := PyStr "mail";
         AddApplicationToRunlistAction.profile := PyStr "slow" |}
      (Return (PyStr "map:web=default"))
    = Return (Immediate (PyDict merged))
    /\ dict_get (KStr "mail") merged = Some (PyStr "slow")
    /\ (forall k', k' <> KStr "mail" ->
                   dict_get k' merged = dict_get k' [(KStr "web", PyStr "default")])
    /\ (1 <= length merged <= 2)%nat.
Proof.
  exact (X22_merge_keeps_other_entries test_runtime
           {| AddApplicationToRunlistAction.name := PyStr "default";
              AddApplicationToRunlistAction.app := PyStr "mail";
              AddApplicationToRunlistAction.profile := PyStr "slow" |}
           (PyStr "map:web=default") [(KStr "web", PyStr "default")] (KStr "mail")
           eq_refl eq_refl).
Defined.

(** X23: adding an application that the runlist already maps to the same
    profile leaves the runlist as it was decoded. *)
Theorem X23_merge_of_present_entry (rt : Runtime)
    (self : AddApplicationToRunlistAction.t) (packed : PyVal) (d : list (Key * PyVal))
    (k : Key) :
  msgpack_loads rt packed = Return (PyDict d) ->
  as_key (AddApplicationToRunlistAction.app self) = Some k ->
  dict_get k d = Some (AddApplicationToRunlistAction.profile self) ->
  AddApplicationToRunlistAction.parseRunlist rt self (Return packed)
  = Return (Immediate (PyDict d)).
Proof.
  intros Hloads Hkey Hpresent. unfold AddApplicationToRunlistAction.parseRunlist. simpl.
  rewrite Hloads. simpl. rewrite Hkey. simpl. by rewrite (dict_set_same _ _ _ Hpresent).
Qed.

Lemma X23_merge_of_present_entry_witness :
  AddApplicationToRunlistAction.parseRunlist test_runtime
    {| AddApplicationToRunlistAction.name := PyStr "default";
       AddApplicationToRunlistAction.app := PyStr "web";
       AddApplicationToRunlistAction.profile := PyStr "default" |}
    (Return (PyStr "map:web=default"))
  = Return (Immediate (PyDict [(KStr "web", PyStr "default")])).
Proof.
  exact (X23_merge_of_present_entry test_runtime
           {| AddApplicationToRunlistAction.name := PyStr "default";
              AddApplicationToRunlistAction.app := PyStr "web";
              AddApplicationToRunlistAction.profile := PyStr "default" |}
           (PyStr "map:web=default") [(KStr "web", PyStr "default")] (KStr "web")
           eq_refl eq_refl eq_refl).
Defined.

(** X24: when the stored runlist decodes to something that takes no item
    assignment (None, a number, a string), the merge step raises TypeError,
    and the step that writes is not reached with a runlist. *)
Theorem X24_merge_into_non_container (rt : Runtime)
    (self : AddApplicationToRunlistAction.t) (packed runlist : PyVal) :
  msgpack_loads rt packed = Return runlist ->
  (forall d, runlist <> PyDict d) -> (forall l, runlist <> PyList l) ->
  exists msg,
    AddApplicationToRunlistAction.parseRunlist rt self (Return packed)
    = Raise (TypeError msg).
Proof.
  intros Hloads Hd Hl. unfold AddApplicationToRunlistAction.parseRunlist. simpl.
  rewrite Hloads. simpl.
  destruct runlist as [| | |l|d]; simpl; try by eexists.
  - by destruct (Hl l).
  - by destruct (Hd d).
Qed.

Lemma X24_merge_into_non_container_witness :
  exists msg,
    AddApplicationToRunlistAction.parseRunlist test_runtime_without_runlists
      {| AddApplicationToRunlistAction.name := PyStr "default";
         AddApplicationToRunlistAction.app := PyStr "web";
         AddApplicationToRunlistAction.profile := PyStr "fast" |}
      (Return (PyStr "nil"))
    = Raise (TypeError msg).
Proof.
  apply (X24_merge_into_non_container test_runtime_without_runlists
           {| AddApplicationToRunlistAction.name := PyStr "default";
              AddApplicationToRunlistAction.app := PyStr "web";
              AddApplicationToRunlistAction.profile := PyStr "fast" |}
           (PyStr "nil") PyNone eq_refl).
  - intros d H. discriminate H.
  - intros l H. discriminate H.
Defined.

(** X25: the step that writes refuses an empty runlist: handed a runlist that
    is false (an empty mapping, None), it raises the ValueError of the upload
    constructor and issues no write. *)
Theorem X25_upload_of_empty_runlist (rt : Runtime)
    (self : AddApplicationToRunlistAction.t) (runlist : PyVal) :
  truthy runlist = false ->
  exists msg,
    AddApplicationToRunlistAction.uploadRunlist rt self (Return runlist)
    = Raise (ValueError msg).
Proof.
  intros Hfalsy.
  unfold AddApplicationToRunlistAction.uploadRunlist, RunlistUploadAction.__init__,
    SpecificRunlistAction.__init__. simpl.
  assert (Hcfg : forall name : PyVal,
             get ({[ "name" := name; "runlist-raw" := runlist ]} : Config) "name" = name
             /\ get ({[ "name" := name; "runlist-raw" := runlist ]} : Config) "manifest"
                = PyNone
             /\ get ({[ "name" := name; "runlist-raw" := runlist ]} : Config) "runlist-raw"
                = runlist).
  { intros name. unfold get. by simplify_map_eq. }
  destruct (Hcfg (AddApplicationToRunlistAction.name self)) as (-> & -> & ->).
  destruct (truthy (AddApplicationToRunlistAction.name self)); simpl; [|by eexists].
  rewrite Hfalsy. simpl. by eexists.
Qed.

Lemma X25_upload_of_empty_runlist_witness :
  exists msg,
    AddApplicationToRunlistAction.uploadRunlist test_runtime
      {| AddApplicationToRunlistAction.name := PyStr "default";
         AddApplicationToRunlistAction.app := PyStr "web";
         AddApplicationToRunlistAction.profile := PyStr "fast" |}
      (Return (PyDict []))
    = Raise (ValueError msg).
Proof.
  exact (X25_upload_of_empty_runlist test_runtime
           {| AddApplicationToRunlistAction.name := PyStr "default";
              AddApplicationToRunlistAction.app := PyStr "web";
              AddApplicationToRunlistAction.profile := PyStr "fast" |}
           (PyDict []) eq_refl).
Defined.

(** ** Crash log constructors *)

(** X26: CrashlogRemoveAllAction built from a configuration is
    CrashlogRemoveAction built from the same configuration without its
    'manifest' entry: same name check, same error, same object. *)
Theorem X26_remove_all_is_remove_without_manifest (config : Config) :
  CrashlogRemoveAllAction.__init__ config
  = CrashlogRemoveAction.__init__ (delete "manifest" config).
Proof.
  unfold CrashlogRemoveAllAction.__init__, CrashlogRemoveAction.__init__,
    CrashlogViewOrRemoveAction.__init__, get.
  rewrite lookup_insert_eq, lookup_delete_eq.
  rewrite lookup_insert_ne, lookup_delete_ne by done. done.
Qed.
